(** * verification/verify_frontend.py: the board verification script

    A shallow embedding of [run] and of the part of Python and of the
    Playwright page API that [run] calls, with the properties of the
    script's control flow, of its two cell checks and of its output.

    [run] is a computation in a state and exception monad. The state
    records the calls made on the browser, the lines printed and which of
    the driver, the browser and the page are alive. What the script
    finds around it is a [world]: the working directory, whether the
    browser starts, the document each URL renders to and where files can
    be written. The document is the list of its elements as they stand
    once rendering has settled; a selector of the script is read from its
    text and matched against the attributes of the elements.

    A [str] is held as the bytes of its UTF-8 encoding: substring
    tests, splitting at ASCII white space and comparison give the same
    answers on the bytes as on the characters. Integers are unbounded as
    in Python. What [int()] makes of a text is the interpreter's and is
    part of the [world], as is its limit on the number of digits of an
    integer that [int()] and [str()] convert. *)

From Stdlib Require Import String Ascii List ZArith Lia Bool.
From Stdlib Require Import DecimalString DecimalZ.
Import ListNotations.

Open Scope string_scope.
Open Scope Z_scope.

(** ** Python strings *)

Module PyStr.

(** The double quote character, which the selector literals contain. *)
Definition dquote : string := String "034"%char EmptyString.

(** [s.startswith(p)]. *)
Fixpoint starts_with (p s : string) : bool :=
  match p, s with
  | EmptyString, _ => true
  | String a p', String b s' => Ascii.eqb a b && starts_with p' s'
  | String _ _, EmptyString => false
  end.

(** [needle in hay] for two [str] values: [needle] occurs in [hay] as a
    contiguous run of characters. *)
Fixpoint contains (needle hay : string) : bool :=
  starts_with needle hay ||
  match hay with
  | EmptyString => false
  | String _ hay' => contains needle hay'
  end.

(** The ASCII white space [int()] skips around a literal: tab, line
    feed, vertical tab, form feed, carriage return and space. *)
Definition is_space (c : ascii) : bool :=
  let n := nat_of_ascii c in
  ((9 <=? n) && (n <=? 13) || (n =? 32))%nat.

(** ASCII white space as HTML has it, which separates the names in a
    [class] attribute: tab, line feed, form feed, carriage return, space. *)
Definition is_html_space (c : ascii) : bool :=
  let n := nat_of_ascii c in
  ((n =? 9) || (n =? 10) || (n =? 12) || (n =? 13) || (n =? 32))%nat.

Definition is_digit (c : ascii) : bool :=
  let n := nat_of_ascii c in
  ((48 <=? n) && (n <=? 57))%nat.

(** The white-space separated tokens of a string: [cur] is the token
    being read, in reverse. *)
Fixpoint split_ws_aux (cur : list ascii) (s : string) : list string :=
  let flush (rest : list string) :=
    match cur with
    | [] => rest
    | _ => string_of_list_ascii (rev cur) :: rest
    end in
  match s with
  | EmptyString => flush []
  | String c s' =>
      if is_html_space c then flush (split_ws_aux [] s')
      else split_ws_aux (c :: cur) s'
  end.

Definition split_ws (s : string) : list string := split_ws_aux [] s.

(** The decimal numeral of an integer, as [str(n)] and [f"{n}"] write
    it. *)
Definition of_int (n : Z) : string := NilZero.string_of_int (Z.to_int n).

(** The number of digits of that numeral, the sign left out. *)
Definition digits (n : Z) : nat := String.length (of_int (Z.abs n)).

(** Whether a conversion between [int] and [str] of [count] digits is
    refused under the limit [max] of the interpreter
    ([sys.get_int_max_str_digits()]): no limit when [max] is 0, and none
    up to 640 digits. *)
Definition over_limit (max count : nat) : bool :=
  ((0 <? max) && (max <? count) && (640 <? count))%nat.

(** [s.lstrip()], on the list of characters. *)
Fixpoint lstrip (l : list ascii) : list ascii :=
  match l with
  | c :: l' => if is_space c then lstrip l' else l
  | [] => []
  end.

(** [s.strip()]. *)
Definition strip (s : string) : string :=
  string_of_list_ascii (rev (lstrip (rev (lstrip (list_ascii_of_string s))))).

(** The digits of the body of a decimal literal, [digit (["_"] digit)*],
    without its underscores; [None] when the body has another shape. *)
Fixpoint literal_digits (s : string) : option string :=
  match s with
  | EmptyString => None
  | String c rest =>
      if is_digit c then
        match rest with
        | EmptyString => Some (String c EmptyString)
        | String u rest' =>
            option_map (String c)
              (if Ascii.eqb u "_" then literal_digits rest'
               else literal_digits rest)
        end
      else None
  end.

(** The sign of a literal (whether it is negative) and what follows it. *)
Definition split_sign (t : string) : bool * string :=
  match t with
  | String "-" b => (true, b)
  | String "+" b => (false, b)
  | _ => (false, t)
  end.

(** [int(s)] for a [str] of ASCII characters, under the limit [max] on
    the digits of the literal: white space around, an optional sign,
    decimal digits with single underscores between them. [None] is
    [ValueError]. *)
Definition to_int (max : nat) (s : string) : option Z :=
  let '(neg, body) := split_sign (strip s) in
  match literal_digits body with
  | Some ds =>
      if over_limit max (String.length ds) then None
      else
        match NilZero.uint_of_string ds with
        | Some u => Some (if neg then - Z.of_uint u else Z.of_uint u)
        | None => None
        end
  | None => None
  end.

End PyStr.

(** ** The rendered document and the selectors of the script *)

Module Dom.

(** An element of the rendered page: its attributes as written, what
    [input_value()] gives for it, and whether it is displayed.
    [control_value] is the current value of the element when it is an
    input, a textarea or a select, the current value of the associated
    control when the element is or is inside a label that has one, and
    [None] for any other element. *)
Record element := mk_element {
  tag : string;
  attrs : list (string * string);
  control_value : option string;
  visible : bool
}.

(** The elements of a document, in document order. *)
Definition document := list element.

(** [element.getAttribute(name)]. *)
Definition get_attr (name : string) (e : element) : option string :=
  option_map snd (find (fun kv => String.eqb (fst kv) name) (attrs e)).

(** [element.classList]: the names in the [class] attribute. *)
Definition class_list (e : element) : list string :=
  match get_attr "class" e with
  | Some c => PyStr.split_ws c
  | None => []
  end.

(** The simple selectors the script's selector strings are made of. *)
Inductive simple_selector :=
| ByClass (name : string)
| ById (name : string)
| ByAttr (name val : string).

(** A compound selector: an element matches when it matches every part. *)
Definition selector := list simple_selector.

Definition is_name_char (c : ascii) : bool :=
  let n := nat_of_ascii c in
  ((48 <=? n) && (n <=? 57) || (65 <=? n) && (n <=? 90) ||
   (97 <=? n) && (n <=? 122) || (n =? 45) || (n =? 95))%nat.

Inductive name_kind := KClass | KId.

(** Where the reader of a selector string stands. *)
Inductive pstate :=
| PStart
| PName (k : name_kind) (acc : list ascii)
| PAttr (acc : list ascii)
| PEq (name : string)
| PVal (name : string) (acc : list ascii)
| PClose (name val : string).

Definition of_rev (acc : list ascii) : string :=
  string_of_list_ascii (rev acc).

Definition named (k : name_kind) (acc : list ascii) : simple_selector :=
  match k with
  | KClass => ByClass (of_rev acc)
  | KId => ById (of_rev acc)
  end.

(** The state after a character that opens a simple selector. *)
Definition open_simple (c : ascii) : option pstate :=
  if Ascii.eqb c "." then Some (PName KClass [])
  else if Ascii.eqb c "#" then Some (PName KId [])
  else if Ascii.eqb c "[" then Some (PAttr [])
  else None.

(** Reads a compound selector made of [.name], [#name] and
    [[name="value"]] parts; [done] holds the parts read, in reverse.
    [None] for any other selector text. *)
Fixpoint parse_from (st : pstate) (done : selector) (s : string)
  : option selector :=
  match s with
  | EmptyString =>
      match st with
      | PStart => match done with [] => None | _ => Some (rev done) end
      | PName k ((_ :: _) as acc) => Some (rev (named k acc :: done))
      | _ => None
      end
  | String c s' =>
      match st with
      | PStart =>
          match open_simple c with
          | Some st' => parse_from st' done s'
          | None => None
          end
      | PName k acc =>
          if is_name_char c then parse_from (PName k (c :: acc)) done s'
          else
            match acc, open_simple c with
            | _ :: _, Some st' => parse_from st' (named k acc :: done) s'
            | _, _ => None
            end
      | PAttr acc =>
          if is_name_char c then parse_from (PAttr (c :: acc)) done s'
          else if Ascii.eqb c "=" then
            match acc with
            | [] => None
            | _ => parse_from (PEq (of_rev acc)) done s'
            end
          else None
      | PEq name =>
          if Ascii.eqb c "034" then parse_from (PVal name []) done s'
          else None
      | PVal name acc =>
          if Ascii.eqb c "034" then parse_from (PClose name (of_rev acc)) done s'
          else if Ascii.eqb c "092" then None
          else parse_from (PVal name (c :: acc)) done s'
      | PClose name val =>
          if Ascii.eqb c "]" then parse_from PStart (ByAttr name val :: done) s'
          else None
      end
  end.

Definition parse (s : string) : option selector := parse_from PStart [] s.

Definition opt_eqb (a : option string) (b : string) : bool :=
  match a with
  | Some x => String.eqb x b
  | None => false
  end.

Definition matches_simple (e : element) (p : simple_selector) : bool :=
  match p with
  | ByClass c => existsb (String.eqb c) (class_list e)
  | ById i => opt_eqb (get_attr "id" e) i
  | ByAttr n v => opt_eqb (get_attr n e) v
  end.

Definition matches (sel : selector) (e : element) : bool :=
  forallb (matches_simple e) sel.

(** [document.querySelectorAll(sel)]. *)
Definition query_all (sel : selector) (d : document) : list element :=
  filter (matches sel) d.

End Dom.

(** ** Python results and the environment of a run *)

(** The exceptions a run can end with. [PlaywrightTimeoutError] is
    Playwright's [TimeoutError], [PlaywrightError] any other [Error] of
    the library. *)
Inductive exn :=
| PlaywrightError
| PlaywrightTimeoutError
| OSError
| TypeError
| ValueError.

Inductive result (A : Type) :=
| Ok (a : A)
| Raise (e : exn).

Arguments Ok {A} a.
Arguments Raise {A} e.

(** What a run finds around it: the working directory, whether the
    browser starts and opens a page, what each URL loads once rendered
    ([None]: the navigation fails), where files can be written, and of
    the interpreter what [int()] returns on a [str] ([None]: it raises
    [ValueError]) and the limit on the digits of the integers it
    converts (0: no limit). *)
Record world := mk_world {
  cwd : string;
  can_launch : bool;
  can_open_page : bool;
  resource : string -> option Dom.document;
  can_write : string -> bool;
  int_of_str : string -> option Z;
  max_str_digits : nat
}.

(** The calls a run makes on the browser and the lines it prints. *)
Inductive event :=
| Launch
| NewPage
| Goto (url : string)
| WaitForSelector (sel : string)
| Screenshot (path : string)
| GetAttribute (sel name : string)
| InputValue (sel : string)
| Print (line : string)
| CloseBrowser
| StopPlaywright.

(** The state a run threads: its events, oldest first, which of the
    Playwright driver, the browser and the page are alive, and the
    document the page shows. *)
Record state := mk_state {
  log : list event;
  driver_running : bool;
  browser_open : bool;
  page_open : bool;
  loaded : Dom.document
}.

Definition initial : state := mk_state [] false false false [].

Definition M (A : Type) : Type := state -> result A * state.

Definition ret {A} (a : A) : M A := fun s => (Ok a, s).

Definition raise {A} (e : exn) : M A := fun s => (Raise e, s).

Definition bind {A B} (m : M A) (k : A -> M B) : M B :=
  fun s =>
    match m s with
    | (Ok a, s') => k a s'
    | (Raise e, s') => (Raise e, s')
    end.

Notation "x <- m ;; k" := (bind m (fun x => k))
  (at level 61, m at next level, right associativity).
Notation "m ;; k" := (bind m (fun _ => k))
  (at level 61, right associativity).

Definition emit (e : event) : M unit :=
  fun s => (Ok tt, mk_state (log s ++ [e]) (driver_running s)
                     (browser_open s) (page_open s) (loaded s)).

Definition of_option {A} (e : exn) (o : option A) : M A :=
  match o with
  | Some a => ret a
  | None => raise e
  end.

(** ** The Playwright calls of the script *)

Module Playwright.

Section Api.

Variable w : world.

(** [p.chromium.launch(headless=True)]. *)
Definition launch : M unit :=
  emit Launch ;;
  if can_launch w then
    fun s => (Ok tt, mk_state (log s) (driver_running s) true false (loaded s))
  else raise PlaywrightError.

(** [browser.new_page()]: a blank page. *)
Definition new_page : M unit :=
  emit NewPage ;;
  if can_open_page w then
    fun s => (Ok tt, mk_state (log s) (driver_running s) (browser_open s) true [])
  else raise PlaywrightError.

(** [page.goto(url)]. *)
Definition goto (url : string) : M unit :=
  emit (Goto url) ;;
  d <- of_option PlaywrightError (resource w url) ;;
  fun s => (Ok tt, mk_state (log s) (driver_running s) (browser_open s)
                     (page_open s) d).

(** The readiness condition of [page.wait_for_selector(sel)], with its
    default state [visible] and without strictness: the first element
    the selector matches is displayed. *)
Definition appeared (q : Dom.selector) (d : Dom.document) : bool :=
  match Dom.query_all q d with
  | e :: _ => Dom.visible e
  | [] => false
  end.

(** [page.wait_for_selector(sel)]: returns once the condition holds,
    raises [TimeoutError] when it does not within the timeout. *)
Definition wait_for_selector (sel : string) : M unit :=
  emit (WaitForSelector sel) ;;
  q <- of_option PlaywrightError (Dom.parse sel) ;;
  fun s => if appeared q (loaded s) then (Ok tt, s)
           else (Raise PlaywrightTimeoutError, s).

(** [page.screenshot(path=path)]: the image is written to [path]. *)
Definition screenshot (path : string) : M unit :=
  emit (Screenshot path) ;;
  if can_write w path then ret tt else raise OSError.

(** The element a locator acts on. Locators are strict: no match within
    the timeout is a [TimeoutError], several matches are an [Error]. *)
Definition resolve (sel : string) (d : Dom.document) : result Dom.element :=
  match Dom.parse sel with
  | None => Raise PlaywrightError
  | Some q =>
      match Dom.query_all q d with
      | [] => Raise PlaywrightTimeoutError
      | [e] => Ok e
      | _ :: _ :: _ => Raise PlaywrightError
      end
  end.

Definition locate (sel : string) : M Dom.element :=
  fun s => (resolve sel (loaded s), s).

(** [page.locator(sel).get_attribute(name)]: the attribute's value, or
    [None] when the element has no such attribute. *)
Definition get_attribute (sel name : string) : M (option string) :=
  emit (GetAttribute sel name) ;;
  e <- locate sel ;;
  ret (Dom.get_attr name e).

(** [page.locator(sel).input_value()]: the value of the control the
    element is or labels; an [Error] on an element that has none. *)
Definition input_value (sel : string) : M string :=
  emit (InputValue sel) ;;
  e <- locate sel ;;
  of_option PlaywrightError (Dom.control_value e).

(** [browser.close()]: closes the browser and its pages. *)
Definition close : M unit :=
  emit CloseBrowser ;;
  fun s => (Ok tt, mk_state (log s) (driver_running s) false false (loaded s)).

(** Leaving [with sync_playwright() as p:], on a normal end or on an
    exception alike: the driver stops, and with it every browser it
    started that is still running. *)
Definition stop (s : state) : state :=
  mk_state (log s ++ [StopPlaywright]) false false false (loaded s).

(** [with sync_playwright() as p: body]. The exit handler does not
    swallow an exception of the body. *)
Definition with_sync_playwright {A} (body : M A) : M A :=
  fun s =>
    let '(r, s') :=
      body (mk_state (log s) true (browser_open s) (page_open s) (loaded s)) in
    (r, stop s').

End Api.

End Playwright.

(** ** The Python operations of the script *)

(** [print(line)]. *)
Definition print (line : string) : M unit := emit (Print line).

(** [f"{v}"] for a value that is a [str] or [None]. *)
Definition fmt (v : option string) : string :=
  match v with
  | Some s => s
  | None => "None"
  end.

(** [needle in v] for a value that is a [str] or [None]: a substring
    test on a [str], a [TypeError] on [None]. *)
Definition py_in (needle : string) (v : option string) : M bool :=
  match v with
  | Some s => ret (PyStr.contains needle s)
  | None => raise TypeError
  end.

(** [int(s)]: the interpreter's reading of [s]. The integer it returns
    has no more digits than the literal it read, so it is within the
    limit on digits. *)
Definition py_int (w : world) (s : string) : M Z :=
  n <- of_option ValueError (int_of_str w s) ;;
  if PyStr.over_limit (max_str_digits w) (PyStr.digits n)
  then raise ValueError else ret n.

(** [f"{n}"] for an [int]: its numeral, a [ValueError] when it has more
    digits than the limit allows. *)
Definition py_str (w : world) (n : Z) : M string :=
  if PyStr.over_limit (max_str_digits w) (PyStr.digits n)
  then raise ValueError else ret (PyStr.of_int n).

(** ** The script *)

(** [run()]. *)
Definition run (w : world) : M unit :=
  Playwright.with_sync_playwright (
    Playwright.launch w ;;
    Playwright.new_page w ;;
    let cwd := cwd w in
    Playwright.goto w ("file://" ++ cwd ++ "/index.html") ;;
    Playwright.wait_for_selector ".cell" ;;
    Playwright.screenshot w "verification/board_screenshot.png" ;;
    let cell_0_0 :=
      ".cell[data-row=" ++ PyStr.dquote ++ "0" ++ PyStr.dquote ++
      "][data-col=" ++ PyStr.dquote ++ "0" ++ PyStr.dquote ++ "]" in
    class_0_0 <- Playwright.get_attribute cell_0_0 "class" ;;
    print ("Cell (0,0) class: " ++ fmt class_0_0) ;;
    hit <- py_in "player1-base" class_0_0 ;;
    (if hit : bool then
       print "SUCCESS: Cell (0,0) correctly identified as player 1 base"
     else
       print "FAILURE: Cell (0,0) should be player 1 base") ;;
    rows_text <- Playwright.input_value "#rows-input" ;;
    rows <- py_int w rows_text ;;
    cols_text <- Playwright.input_value "#cols-input" ;;
    cols <- py_int w cols_text ;;
    let last_row := rows - 1 in
    let last_col := cols - 1 in
    row_numeral <- py_str w last_row ;;
    col_numeral <- py_str w last_col ;;
    let cell_last :=
      ".cell[data-row=" ++ PyStr.dquote ++ row_numeral ++ PyStr.dquote ++
      "][data-col=" ++ PyStr.dquote ++ col_numeral ++ PyStr.dquote ++ "]" in
    class_last <- Playwright.get_attribute cell_last "class" ;;
    row_numeral <- py_str w last_row ;;
    col_numeral <- py_str w last_col ;;
    print ("Cell (" ++ row_numeral ++ "," ++ col_numeral ++
           ") class: " ++ fmt class_last) ;;
    hit <- py_in "player2-base" class_last ;;
    (if hit : bool then
       print "SUCCESS: Last cell correctly identified as player 2 base"
     else
       print "FAILURE: Last cell should be player 2 base") ;;
    Playwright.close).

(** A run of the script from a fresh process: how [run()] ends and the
    state it leaves. *)
Definition exec (w : world) : result unit * state := run w initial.

(** The exit status of [python verify_frontend.py]: 0 when [run()]
    returns, 1 when an exception leaves it. *)
Definition main (w : world) : Z :=
  match fst (exec w) with
  | Ok _ => 0
  | Raise _ => 1
  end.

(** The lines a run wrote to standard output, oldest first. *)
Fixpoint printed (l : list event) : list string :=
  match l with
  | [] => []
  | Print line :: l' => line :: printed l'
  | _ :: l' => printed l'
  end.

Definition stdout (w : world) : list string := printed (log (snd (exec w))).

(** ** Vocabulary of the statements *)

(** The URL the script navigates to. *)
Definition index_url (w : world) : string := "file://" ++ cwd w ++ "/index.html".

(** The path the screenshot is written to. *)
Definition shot_path : string := "verification/board_screenshot.png".

(** The locator text of the first check, as the script writes it. *)
Definition first_cell : string :=
  ".cell[data-row=" ++ PyStr.dquote ++ "0" ++ PyStr.dquote ++
  "][data-col=" ++ PyStr.dquote ++ "0" ++ PyStr.dquote ++ "]".

(** The locator text the script formats for the cell in row [r] and
    column [c]. *)
Definition cell_locator (r c : Z) : string :=
  ".cell[data-row=" ++ PyStr.dquote ++ PyStr.of_int r ++ PyStr.dquote ++
  "][data-col=" ++ PyStr.dquote ++ PyStr.of_int c ++ PyStr.dquote ++ "]".

(** The selector that text denotes: the elements of class [cell] whose
    [data-row] and [data-col] attributes are the numerals of [r], [c]. *)
Definition cell_at (r c : Z) : Dom.selector :=
  [Dom.ByClass "cell"; Dom.ByAttr "data-row" (PyStr.of_int r);
   Dom.ByAttr "data-col" (PyStr.of_int c)].

(** The line that opens the report of a check. *)
Definition cell_line (r c : Z) (classes : option string) : string :=
  "Cell (" ++ PyStr.of_int r ++ "," ++ PyStr.of_int c ++ ") class: " ++ fmt classes.

Definition success_first : string :=
  "SUCCESS: Cell (0,0) correctly identified as player 1 base".
Definition failure_first : string :=
  "FAILURE: Cell (0,0) should be player 1 base".
Definition success_last : string :=
  "SUCCESS: Last cell correctly identified as player 2 base".
Definition failure_last : string :=
  "FAILURE: Last cell should be player 2 base".

(** The browser starts, opens a page and the navigation loads [d]. *)
Definition opens (w : world) (d : Dom.document) : Prop :=
  can_launch w = true /\ can_open_page w = true /\
  resource w (index_url w) = Some d.

(** ... and the board appears in [d] within the timeout. *)
Definition renders (w : world) (d : Dom.document) : Prop :=
  opens w d /\ Playwright.appeared [Dom.ByClass "cell"] d = true.

(** ... and the screenshot can be written. *)
Definition ready (w : world) (d : Dom.document) : Prop :=
  renders w d /\ can_write w shot_path = true.

(** The locator [sel] finds one element in [d], whose [class] attribute
    reads [classes]. *)
Definition class_of (sel : string) (d : Dom.document) (classes : option string)
  : Prop :=
  exists e, Playwright.resolve sel d = Ok e /\ Dom.get_attr "class" e = classes.

(** [str(n)] and [f"{n}"] raise nothing: the numeral of [n] is within
    the limit on digits. *)
Definition formats (w : world) (n : Z) : Prop :=
  PyStr.over_limit (max_str_digits w) (PyStr.digits n) = false.

(** The locator [sel] finds one element in [d], [input_value()] gives
    its value and [int()] reads the integer [n] from it. *)
Definition input_is (w : world) (sel : string) (d : Dom.document) (n : Z)
  : Prop :=
  exists e v, Playwright.resolve sel d = Ok e /\
              Dom.control_value e = Some v /\
              int_of_str w v = Some n /\
              formats w n.

(** The events up to the first check of a run that is [ready]. *)
Definition setup_log (w : world) : list event :=
  [Launch; NewPage; Goto (index_url w); WaitForSelector ".cell";
   Screenshot shot_path].

(** The line that closes the report of the first check. *)
Definition first_report (classes : string) : string :=
  if PyStr.contains "player1-base" classes then success_first
  else failure_first.

(** The line that closes the report of the second check. *)
Definition last_report (classes : string) : string :=
  if PyStr.contains "player2-base" classes then success_last
  else failure_last.

(** [line] is the closing line of a report that names the cell as
    [cell_name] and what is expected of it as [expectation]. *)
Definition is_report (cell_name expectation line : string) : Prop :=
  line = "SUCCESS: " ++ cell_name ++ " correctly identified as " ++ expectation \/
  line = "FAILURE: " ++ cell_name ++ " should be " ++ expectation.

(** The events of the first check when it reads [classes]. *)
Definition first_log (classes : string) : list event :=
  [GetAttribute first_cell "class";
   Print (cell_line 0 0 (Some classes));
   Print (first_report classes)].

(** The events of the second check on the cell ([r], [c]) when it reads
    [classes]. *)
Definition last_log (r c : Z) (classes : string) : list event :=
  [GetAttribute (cell_locator r c) "class";
   Print (cell_line r c (Some classes));
   Print (last_report classes)].

(** A character that stands for itself inside a quoted attribute value. *)
Definition is_plain (c : ascii) : bool :=
  negb (Ascii.eqb c "034") && negb (Ascii.eqb c "092").

(** [all_chars p s]: every character of [s] satisfies [p]. *)
Fixpoint all_chars (p : ascii -> bool) (s : string) : bool :=
  match s with
  | EmptyString => true
  | String c s' => p c && all_chars p s'
  end.

(** The locator [sel] finds one element in [d], [input_value()] gives
    its value and [int()] raises [ValueError] on it. *)
Definition input_unparsable (w : world) (sel : string) (d : Dom.document)
  : Prop :=
  exists e v, Playwright.resolve sel d = Ok e /\
              Dom.control_value e = Some v /\
              int_of_str w v = None.

(** An event that reads the page or prints a line. *)
Definition is_read (ev : event) : bool :=
  match ev with
  | GetAttribute _ _ | InputValue _ | Print _ => true
  | _ => false
  end.

(** [shot_first seen l]: in [l] every read or print comes after a call
    that writes the screenshot to [shot_path]; [seen] tells whether such
    a call came before [l]. *)
Fixpoint shot_first (seen : bool) (l : list event) : bool :=
  match l with
  | [] => true
  | Screenshot path :: l' => shot_first (seen || String.eqb path shot_path) l'
  | ev :: l' => (negb (is_read ev) || seen) && shot_first seen l'
  end.

(** ** Example boards *)

Module Boards.

Definition cell (classes row col : string) : Dom.element :=
  Dom.mk_element "div"
    [("class", classes); ("data-row", row); ("data-col", col)] None true.

Definition number_input (id v : string) : Dom.element :=
  Dom.mk_element "input" [("type", "number"); ("id", id)] (Some v) true.

(** A rendered 5 by 7 board with the given class strings on its first
    and last cells. *)
Definition board (first last : string) : Dom.document :=
  [number_input "rows-input" "5"; number_input "cols-input" "7";
   cell first "0" "0"; cell "cell" "0" "1"; cell "cell" "4" "5";
   cell last "4" "6"].

(** A working directory that holds [index.html] rendering [d];
    [writable] tells whether the screenshot can be written. The pages
    of the examples hold ASCII text, the interpreter has its default
    limit of 4300 digits. *)
Definition serving (d : Dom.document) (writable : bool) : world :=
  mk_world "/home/dev/virusgame" true true
    (fun url =>
       if String.eqb url "file:///home/dev/virusgame/index.html" then Some d
       else None)
    (fun _ => writable)
    (PyStr.to_int 4300) 4300.

(** Class strings that hold the expected text inside a longer name. *)
Definition lookalike_first : string := "cell ex-player1-base".
Definition lookalike_last : string := "cell player2-base-lost".

(** The usual board, its corner cells classified as expected. *)
Definition usual : Dom.document := board "cell player1-base" "cell player2-base".

(** A board whose first cell has lost its [class] attribute. *)
Definition classless : Dom.document :=
  [number_input "rows-input" "5"; number_input "cols-input" "7";
   Dom.mk_element "div" [("data-row", "0"); ("data-col", "0")] None true;
   cell "cell" "0" "1"; cell "cell player2-base" "4" "6"].

(** A directory without [index.html]. *)
Definition empty_dir : world :=
  mk_world "/home/dev/elsewhere" true true (fun _ => None) (fun _ => true)
    (PyStr.to_int 4300) 4300.

(** A board whose inputs show [rows] and [cols], with the two corner
    cells of a 5 by 7 board. *)
Definition configured (rows cols : string) : Dom.document :=
  [number_input "rows-input" rows; number_input "cols-input" cols;
   cell "cell player1-base" "0" "0"; cell "cell player2-base" "4" "6"].

(** A board without the row-count input. *)
Definition no_rows_input : Dom.document :=
  [number_input "cols-input" "7";
   cell "cell player1-base" "0" "0"; cell "cell player2-base" "4" "6"].

(** A board of one cell, the base of both players. *)
Definition single : Dom.document :=
  [number_input "rows-input" "1"; number_input "cols-input" "1";
   cell "cell player1-base player2-base" "0" "0"].

(** A board that renders its first cell twice. *)
Definition doubled : Dom.document :=
  [number_input "rows-input" "5"; number_input "cols-input" "7";
   cell "cell player1-base" "0" "0"; cell "cell" "0" "0";
   cell "cell player2-base" "4" "6"].

(** A board whose last cell has lost its [class] attribute. *)
Definition classless_last : Dom.document :=
  [number_input "rows-input" "5"; number_input "cols-input" "7";
   cell "cell player1-base" "0" "0"; cell "cell" "0" "1";
   Dom.mk_element "div" [("data-row", "4"); ("data-col", "6")] None true].

(** Boards that lack the first cell, and the last one. *)
Definition no_first_cell : Dom.document :=
  [number_input "rows-input" "5"; number_input "cols-input" "7";
   cell "cell" "0" "1"; cell "cell player2-base" "4" "6"].

Definition no_last_cell : Dom.document :=
  [number_input "rows-input" "5"; number_input "cols-input" "7";
   cell "cell player1-base" "0" "0"; cell "cell" "0" "1"].

(** A board whose row count is shown by a paragraph, not a control. *)
Definition rows_in_text : Dom.document :=
  [Dom.mk_element "p" [("id", "rows-input")] None true;
   number_input "cols-input" "7";
   cell "cell player1-base" "0" "0"; cell "cell player2-base" "4" "6"].

End Boards.

(** * Properties *)

(** ** Strings *)

Section StringFacts.

Lemma append_nil_r (s : string) : s ++ "" = s.
Proof. induction s as [|c s IH]; simpl; [reflexivity | now rewrite IH]. Qed.

Lemma append_assoc (a b c : string) : (a ++ b) ++ c = a ++ b ++ c.
Proof. induction a as [|x a IH]; simpl; [reflexivity | now rewrite IH]. Qed.

Lemma of_list_app (l1 l2 : list ascii) :
  string_of_list_ascii (l1 ++ l2)%list =
  string_of_list_ascii l1 ++ string_of_list_ascii l2.
Proof. induction l1 as [|x l1 IH]; simpl; [reflexivity | now rewrite IH]. Qed.

Lemma starts_with_app (p r : string) : PyStr.starts_with p (p ++ r) = true.
Proof.
  induction p as [|c p IH]; simpl; [reflexivity|].
  now rewrite Ascii.eqb_refl, IH.
Qed.

Lemma starts_with_inv (p s : string) :
  PyStr.starts_with p s = true -> exists r, s = p ++ r.
Proof.
  revert s; induction p as [|c p IH]; intros s H.
  - now exists s.
  - destruct s as [|b s]; simpl in H; [discriminate|].
    apply andb_true_iff in H as [Hc Hp].
    apply Ascii.eqb_eq in Hc; subst b.
    destruct (IH _ Hp) as [r ->]. now exists r.
Qed.

Lemma contains_prefix (needle hay : string) :
  PyStr.starts_with needle hay = true -> PyStr.contains needle hay = true.
Proof. intros H. destruct hay; simpl; now rewrite H. Qed.

(** [needle in hay] holds exactly when [hay] is some text, [needle],
    and some more text. *)
Lemma contains_iff (needle hay : string) :
  PyStr.contains needle hay = true <->
  exists a b, hay = a ++ needle ++ b.
Proof.
  split.
  - induction hay as [|c hay IH]; simpl; intros H.
    + rewrite orb_false_r in H. apply starts_with_inv in H as [r Hr].
      now exists "", r.
    + apply orb_true_iff in H as [H|H].
      * apply starts_with_inv in H as [r Hr]. now exists "", r.
      * destruct (IH H) as (a & b & ->). now exists (String c a), b.
  - intros (a & b & ->). induction a as [|c a IH]; simpl.
    + apply contains_prefix, starts_with_app.
    + rewrite IH. apply orb_true_r.
Qed.

(** Each name [split_ws] returns is a run of characters of the string. *)
Lemma split_ws_aux_occurs (t : string) (s : string) :
  forall cur, In t (PyStr.split_ws_aux cur s) ->
  exists a b, string_of_list_ascii (rev cur) ++ s = a ++ t ++ b.
Proof.
  induction s as [|c s IH]; intros cur H; simpl in H.
  - destruct cur as [|x cur]; [contradiction|].
    destruct H as [<-|[]]. exists "", "". simpl. reflexivity.
  - destruct (PyStr.is_html_space c).
    + assert (Hrest : In t (PyStr.split_ws_aux [] s) ->
                      exists a b, string_of_list_ascii (rev cur) ++ String c s
                                  = a ++ t ++ b).
      { intros H'. destruct (IH [] H') as (a & b & E). simpl in E. subst s.
        exists (string_of_list_ascii (rev cur) ++ String c a), b.
        now rewrite append_assoc. }
      destruct cur as [|x cur]; [now apply Hrest|].
      destruct H as [<-|H]; [|now apply Hrest].
      exists "", (String c s). reflexivity.
    + destruct (IH _ H) as (a & b & E). exists a, b. rewrite <- E.
      simpl. rewrite of_list_app, append_assoc. reflexivity.
Qed.

(** A name of the class list occurs in the class string, so the
    substring test of the script finds it. *)
Lemma token_contained (t s : string) :
  In t (PyStr.split_ws s) -> PyStr.contains t s = true.
Proof.
  intros H. apply contains_iff.
  destruct (split_ws_aux_occurs _ _ _ H) as (a & b & E). now exists a, b.
Qed.

Lemma all_chars_impl (p q : ascii -> bool) (s : string) :
  (forall c, p c = true -> q c = true) ->
  all_chars p s = true -> all_chars q s = true.
Proof.
  intros Hpq. induction s as [|c s IH]; simpl; [reflexivity|].
  intros H. apply andb_true_iff in H as [Hc Hs].
  now rewrite (Hpq _ Hc), IH.
Qed.

Lemma uint_digits (d : Decimal.uint) :
  all_chars PyStr.is_digit (NilEmpty.string_of_uint d) = true.
Proof. induction d; simpl; auto. Qed.

Lemma uint_nonempty (d : Decimal.uint) :
  d <> Decimal.Nil -> NilEmpty.string_of_uint d <> "".
Proof. destruct d; simpl; congruence. Qed.

(** The numeral of an integer: digits, after a minus sign when it is
    negative. *)
Lemma of_int_shape (z : Z) :
  exists d, d <> Decimal.Nil /\ Z.of_uint d = Z.abs z /\
    PyStr.of_int z =
      if z <? 0 then String "-" (NilEmpty.string_of_uint d)
      else NilEmpty.string_of_uint d.
Proof.
  destruct z as [|p|p].
  - exists (Decimal.D0 Decimal.Nil). repeat split. discriminate.
  - exists (Pos.to_uint p). split; [apply DecimalPos.Unsigned.to_uint_nonnil|].
    split.
    + unfold Z.of_uint. now rewrite DecimalPos.Unsigned.of_to.
    + unfold PyStr.of_int. simpl.
      destruct (Pos.to_uint p) eqn:E; try reflexivity.
      now apply DecimalPos.Unsigned.to_uint_nonnil in E.
  - exists (Pos.to_uint p). split; [apply DecimalPos.Unsigned.to_uint_nonnil|].
    split.
    + unfold Z.of_uint. now rewrite DecimalPos.Unsigned.of_to.
    + unfold PyStr.of_int. simpl.
      destruct (Pos.to_uint p) eqn:E; try reflexivity.
      now apply DecimalPos.Unsigned.to_uint_nonnil in E.
Qed.

Example to_int_samples :
  map (PyStr.to_int 4300)
    [" 10 "; "-5"; "+7"; "1_0"; "007"; "1__0"; "_1"; ""; "1e1"; "10.5";
     "- 5"; String "028" "5"; String "009" "5"] =
  [Some 10; Some (-5); Some 7; Some 10; Some 7; None; None; None; None;
   None; None; None; Some 5].
Proof. reflexivity. Qed.

Example split_ws_sample :
  PyStr.split_ws "  cell  player1-base " = ["cell"; "player1-base"].
Proof. reflexivity. Qed.

(** *** The number of digits *)

Lemma numeral_length (d : Decimal.uint) :
  String.length (NilEmpty.string_of_uint d) = Decimal.nb_digits d.
Proof. induction d; simpl; auto. Qed.

(** The digits of a natural number are those of its little-endian
    numeral. *)
Lemma digits_to_lu (z : Z) :
  0 <= z ->
  PyStr.digits z = Decimal.nb_digits (DecimalPos.Unsigned.to_lu (Z.to_N z)).
Proof.
  intros Hz. unfold PyStr.digits. rewrite Z.abs_eq by assumption.
  destruct z as [|p|p]; [reflexivity| |lia].
  unfold PyStr.of_int. simpl.
  pose proof (DecimalPos.Unsigned.to_uint_nonnil p) as Hnil.
  unfold NilZero.string_of_uint.
  destruct (Pos.to_uint p) eqn:E; try congruence;
    rewrite <- E, numeral_length; unfold Pos.to_uint;
    apply DecimalFacts.nb_digits_rev.
Qed.

Lemma succ_keeps_digits (d : Decimal.uint) :
  (Decimal.nb_digits d <= Decimal.nb_digits (Decimal.Little.succ d))%nat.
Proof. induction d; simpl; lia. Qed.

(** Counting down from a positive number does not add a digit. *)
Lemma digits_pred (n : Z) :
  1 <= n -> (PyStr.digits (n - 1) <= PyStr.digits n)%nat.
Proof.
  intros Hn. rewrite !digits_to_lu by lia.
  replace (Z.to_N n) with (N.succ (Z.to_N (n - 1))) by lia.
  rewrite DecimalPos.Unsigned.to_lu_succ. apply succ_keeps_digits.
Qed.

Lemma over_limit_le (max a b : nat) :
  (a <= b)%nat -> PyStr.over_limit max b = false ->
  PyStr.over_limit max a = false.
Proof.
  unfold PyStr.over_limit. intros Hab Hb.
  destruct (0 <? max)%nat eqn:H0; [|reflexivity]. simpl in *.
  apply andb_false_iff in Hb as [Hb|Hb].
  - apply Nat.ltb_ge in Hb. apply andb_false_iff. left.
    apply Nat.ltb_ge. lia.
  - apply Nat.ltb_ge in Hb. apply andb_false_iff. right.
    apply Nat.ltb_ge. lia.
Qed.

Lemma one_digit_fits (max : nat) (n : Z) :
  PyStr.digits n = 1%nat -> PyStr.over_limit max (PyStr.digits n) = false.
Proof.
  intros ->. unfold PyStr.over_limit.
  destruct (0 <? max)%nat; simpl; [|reflexivity].
  apply andb_false_iff. right. reflexivity.
Qed.

End StringFacts.

(** ** Selectors *)

Section SelectorFacts.

(** The reader takes a quoted value without quote or backslash whole. *)
Lemma parse_value (x rest : string) :
  all_chars is_plain x = true ->
  forall name acc done,
    Dom.parse_from (Dom.PVal name acc) done (x ++ rest) =
    Dom.parse_from (Dom.PVal name (rev_append (list_ascii_of_string x) acc))
      done rest.
Proof.
  induction x as [|c x IH]; intros H name acc done; [reflexivity|].
  simpl in H. apply andb_true_iff in H as [Hc Hx].
  unfold is_plain in Hc. apply andb_true_iff in Hc as [Hq Hb].
  apply negb_true_iff in Hq, Hb.
  simpl. rewrite Hq, Hb. now apply IH.
Qed.

Lemma of_rev_append (x : string) :
  Dom.of_rev (rev_append (list_ascii_of_string x) []) = x.
Proof.
  unfold Dom.of_rev.
  now rewrite rev_append_rev, app_nil_r, rev_involutive,
    string_of_list_ascii_of_string.
Qed.

Lemma digit_plain (c : ascii) : PyStr.is_digit c = true -> is_plain c = true.
Proof.
  destruct c as [[] [] [] [] [] [] [] []]; intros H;
    solve [reflexivity | discriminate H].
Qed.

Lemma numeral_plain (z : Z) : all_chars is_plain (PyStr.of_int z) = true.
Proof.
  destruct (of_int_shape z) as (d & _ & _ & ->).
  pose proof (all_chars_impl _ _ _ digit_plain (uint_digits d)) as H.
  destruct (z <? 0); [simpl; exact H | exact H].
Qed.

(** The text the script formats for a cell is read as the selector of
    that cell. *)
Lemma parse_cell_locator (r c : Z) :
  Dom.parse (cell_locator r c) = Some (cell_at r c).
Proof.
  unfold cell_locator, Dom.parse, PyStr.dquote. simpl.
  rewrite parse_value by apply numeral_plain. simpl.
  rewrite parse_value by apply numeral_plain. simpl.
  now rewrite !of_rev_append.
Qed.

Lemma parse_first_cell : Dom.parse first_cell = Some (cell_at 0 0).
Proof. reflexivity. Qed.

Lemma parse_board : Dom.parse ".cell" = Some [Dom.ByClass "cell"].
Proof. reflexivity. Qed.

Example parse_samples :
  map Dom.parse ["#rows-input"; "#cols-input"; ".a.b#c"; "div"; ""; "."] =
  [Some [Dom.ById "rows-input"]; Some [Dom.ById "cols-input"];
   Some [Dom.ByClass "a"; Dom.ByClass "b"; Dom.ById "c"]; None; None; None].
Proof. reflexivity. Qed.

(** An element a selector with [.cell] matches has a [class] attribute. *)
Lemma matched_has_class (q : Dom.selector) (e : Dom.element) :
  Dom.matches (Dom.ByClass "cell" :: q) e = true ->
  exists classes, Dom.get_attr "class" e = Some classes /\
                  In "cell" (PyStr.split_ws classes).
Proof.
  unfold Dom.matches. cbn [forallb Dom.matches_simple]. intros H.
  apply andb_true_iff in H as [H _].
  apply existsb_exists in H as (x & Hin & Hx).
  apply String.eqb_eq in Hx; subst x.
  unfold Dom.class_list in Hin.
  destruct (Dom.get_attr "class" e) as [classes|]; [|contradiction].
  now exists classes.
Qed.

(** What a locator resolves to is the one element its selector matches. *)
Lemma resolve_inv (sel : string) (d : Dom.document) (e : Dom.element) :
  Playwright.resolve sel d = Ok e ->
  exists q, Dom.parse sel = Some q /\ Dom.query_all q d = [e].
Proof.
  unfold Playwright.resolve. intros H.
  destruct (Dom.parse sel) as [q|]; [|discriminate].
  exists q. split; [reflexivity|].
  destruct (Dom.query_all q d) as [|x [|y l]]; try discriminate.
  now injection H as ->.
Qed.

Lemma query_matches (q : Dom.selector) (d : Dom.document) (e : Dom.element) :
  Dom.query_all q d = [e] -> In e d /\ Dom.matches q e = true.
Proof.
  intros H. apply (filter_In (Dom.matches q) e d).
  unfold Dom.query_all in H. rewrite H. now left.
Qed.

(** A locator fails with an exception of Playwright. *)
Lemma resolve_raises (sel : string) (d : Dom.document) (e : exn) :
  Playwright.resolve sel d = Raise e ->
  e = PlaywrightError \/ e = PlaywrightTimeoutError.
Proof.
  unfold Playwright.resolve.
  destruct (Dom.parse sel) as [q|]; [|intros [= <-]; now left].
  destruct (Dom.query_all q d) as [|x [|y l]]; intros [= <-]; auto.
Qed.

(** The class read of a cell locator is never [None]. *)
Lemma cell_has_class (r c : Z) (d : Dom.document) (e : Dom.element) :
  Playwright.resolve (cell_locator r c) d = Ok e ->
  exists classes, Dom.get_attr "class" e = Some classes.
Proof.
  intros H. apply resolve_inv in H as (q & Hq & Hm).
  rewrite parse_cell_locator in Hq. injection Hq as <-.
  apply query_matches in Hm as [_ Hm].
  apply matched_has_class in Hm as (classes & Hc & _). now exists classes.
Qed.

End SelectorFacts.

(** ** Runs *)

Ltac expose :=
  unfold formats, stdout, setup_log, first_log, last_log, first_report,
    last_report, cell_line, index_url, shot_path,
    first_cell, cell_locator, success_first, failure_first, success_last,
    failure_last in *.

Ltac eval_run :=
  cbv beta iota zeta delta
    [exec run Playwright.with_sync_playwright Playwright.launch
     Playwright.new_page Playwright.goto Playwright.wait_for_selector
     Playwright.screenshot Playwright.get_attribute Playwright.input_value
     Playwright.locate Playwright.close Playwright.stop print py_in py_int
     py_str
     bind ret raise emit of_option initial fmt
     log driver_running browser_open page_open loaded app fst snd printed].

(** Case analysis on what the next step of the run finds. *)
Ltac branch :=
  match goal with
  | |- context [match ?x with _ => _ end] =>
      lazymatch x with
      | context [match _ with _ => _ end] => fail
      | _ => destruct x eqn:?
      end
  end.

(** What the case analysis learnt, set against what is known. *)
Ltac tidy :=
  repeat match goal with
         | H : ?a = ?a |- _ => clear H
         | H : true = false |- _ => discriminate H
         | H : false = true |- _ => discriminate H
         | H : Some _ = None |- _ => discriminate H
         | H : None = Some _ |- _ => discriminate H
         | H : Ok _ = Raise _ |- _ => discriminate H
         | H : Raise _ = Ok _ |- _ => discriminate H
         | H : Some _ = Some _ |- _ => injection H as H; subst
         | H : Ok _ = Ok _ |- _ => injection H as H; subst
         | H : Raise _ = Raise _ |- _ => injection H as H; subst
         end.

Ltac run_cases :=
  expose; eval_run; rewrite ?parse_board;
  repeat (branch; tidy; try eval_run).

Section RunFacts.

Variable w : world.
Variable d : Dom.document.

(** A run in which every step succeeds: its events in full. *)
Lemma run_complete (c1 c2 : string) (R C : Z) :
  ready w d ->
  class_of first_cell d (Some c1) ->
  input_is w "#rows-input" d R ->
  input_is w "#cols-input" d C ->
  formats w (R - 1) ->
  formats w (C - 1) ->
  class_of (cell_locator (R - 1) (C - 1)) d (Some c2) ->
  exec w =
    (Ok tt,
     mk_state
       (setup_log w ++ first_log c1 ++
        [InputValue "#rows-input"; InputValue "#cols-input"] ++
        last_log (R - 1) (C - 1) c2 ++ [CloseBrowser; StopPlaywright])
       false false false d).
Proof.
  intros [[(Hl & Hp & Hd) Ha] Hs] (e1 & He1 & Hc1)
    (er & vr & Her & Hvr & Hir & Hfr) (ec & vc & Hec & Hvc & Hic & Hfc)
    HfR HfC (e2 & He2 & Hc2).
  run_cases; reflexivity.
Qed.

(** A run whose first check reads a class string reports it and goes on
    to read the row count, whatever the check found. *)
Lemma first_check_goes_on (c1 : string) :
  ready w d ->
  class_of first_cell d (Some c1) ->
  exists rest,
    log (snd (exec w)) =
    (setup_log w ++ first_log c1 ++ InputValue "#rows-input" :: rest)%list.
Proof.
  intros [[(Hl & Hp & Hd) Ha] Hs] (e1 & He1 & Hc1).
  run_cases; eexists; reflexivity.
Qed.

(** A run that reads the configuration queries the cell in the last row
    and the last column next, and no other cell after it. *)
Lemma last_cell_queried (c1 : string) (R C : Z) :
  ready w d ->
  class_of first_cell d (Some c1) ->
  input_is w "#rows-input" d R ->
  input_is w "#cols-input" d C ->
  formats w (R - 1) ->
  formats w (C - 1) ->
  exists rest,
    log (snd (exec w)) =
    (setup_log w ++ first_log c1 ++
     [InputValue "#rows-input"; InputValue "#cols-input";
      GetAttribute (cell_locator (R - 1) (C - 1)) "class"] ++ rest)%list /\
    forall sel name, ~ In (GetAttribute sel name) rest.
Proof.
  intros [[(Hl & Hp & Hd) Ha] Hs] (e1 & He1 & Hc1)
    (er & vr & Her & Hvr & Hir & Hfr) (ec & vc & Hec & Hvc & Hic & Hfc)
    HfR HfC.
  run_cases; eexists; (split; [reflexivity|]);
    intros sel name Hin; simpl in Hin;
    repeat (destruct Hin as [Hin|Hin]; [discriminate Hin|]); exact Hin.
Qed.

(** A run that finds no board ends at the wait. *)
Lemma wait_times_out :
  opens w d ->
  Playwright.appeared [Dom.ByClass "cell"] d = false ->
  exec w =
    (Raise PlaywrightTimeoutError,
     mk_state [Launch; NewPage; Goto (index_url w); WaitForSelector ".cell";
               StopPlaywright]
       false false false d).
Proof.
  intros (Hl & Hp & Hd) Ha. run_cases; reflexivity.
Qed.

(** A run that cannot write the screenshot ends there. *)
Lemma screenshot_fails :
  renders w d ->
  can_write w shot_path = false ->
  exec w =
    (Raise OSError,
     mk_state (setup_log w ++ [StopPlaywright]) false false false d).
Proof.
  intros [(Hl & Hp & Hd) Ha] Hs. run_cases; reflexivity.
Qed.

(** A run whose locator for the first cell matches nothing ends there. *)
Lemma first_cell_missing (e : exn) :
  ready w d ->
  Playwright.resolve first_cell d = Raise e ->
  exec w =
    (Raise e,
     mk_state (setup_log w ++ [GetAttribute first_cell "class"; StopPlaywright])
       false false false d).
Proof.
  intros [[(Hl & Hp & Hd) Ha] Hs] He. run_cases; reflexivity.
Qed.

(** A run whose locator for the last cell matches nothing ends there,
    after the report of the first check. *)
Lemma last_cell_missing (c1 : string) (R C : Z) (e : exn) :
  ready w d ->
  class_of first_cell d (Some c1) ->
  input_is w "#rows-input" d R ->
  input_is w "#cols-input" d C ->
  formats w (R - 1) ->
  formats w (C - 1) ->
  Playwright.resolve (cell_locator (R - 1) (C - 1)) d = Raise e ->
  exec w =
    (Raise e,
     mk_state
       (setup_log w ++ first_log c1 ++
        [InputValue "#rows-input"; InputValue "#cols-input";
         GetAttribute (cell_locator (R - 1) (C - 1)) "class"; StopPlaywright])
       false false false d).
Proof.
  intros [[(Hl & Hp & Hd) Ha] Hs] (e1 & He1 & Hc1)
    (er & vr & Her & Hvr & Hir & Hfr) (ec & vc & Hec & Hvc & Hic & Hfc)
    HfR HfC He.
  run_cases; reflexivity.
Qed.

(** The class read of the first check is never [None] either. *)
Lemma first_cell_has_class (e : Dom.element) :
  Playwright.resolve first_cell d = Ok e ->
  exists classes, Dom.get_attr "class" e = Some classes.
Proof. exact (cell_has_class 0 0 d e). Qed.

End RunFacts.

(** What the selector of a cell asks of an element. *)
Lemma matches_cell_at (r c : Z) (e : Dom.element) :
  Dom.matches (cell_at r c) e = true ->
  Dom.get_attr "data-row" e = Some (PyStr.of_int r) /\
  Dom.get_attr "data-col" e = Some (PyStr.of_int c) /\
  exists classes, Dom.get_attr "class" e = Some classes /\
                  In "cell" (PyStr.split_ws classes).
Proof.
  intros H. pose proof (matched_has_class _ _ H) as Hc.
  unfold Dom.matches, cell_at in H.
  cbn [forallb Dom.matches_simple] in H.
  apply andb_true_iff in H as [_ H].
  apply andb_true_iff in H as [Hr H].
  apply andb_true_iff in H as [Hcol _].
  unfold Dom.opt_eqb in Hr, Hcol.
  destruct (Dom.get_attr "data-row" e) as [x|]; [|discriminate].
  destruct (Dom.get_attr "data-col" e) as [y|]; [|discriminate].
  apply String.eqb_eq in Hr, Hcol. subst. auto.
Qed.

Lemma query_none (q : Dom.selector) (d : Dom.document) :
  (forall e, In e d -> Dom.matches q e = false) -> Dom.query_all q d = [].
Proof.
  induction d as [|x d IH]; intros H; [reflexivity|].
  unfold Dom.query_all in *. simpl.
  rewrite (H x) by now left.
  apply IH. intros e He. apply H. now right.
Qed.

(** What a locator does by the number of elements its selector matches. *)
Lemma resolve_none (sel : string) (q : Dom.selector) (d : Dom.document) :
  Dom.parse sel = Some q -> Dom.query_all q d = [] ->
  Playwright.resolve sel d = Raise PlaywrightTimeoutError.
Proof. intros Hq Hm. unfold Playwright.resolve. now rewrite Hq, Hm. Qed.

Lemma resolve_one (sel : string) (q : Dom.selector) (d : Dom.document)
  (e : Dom.element) :
  Dom.parse sel = Some q -> Dom.query_all q d = [e] ->
  Playwright.resolve sel d = Ok e.
Proof. intros Hq Hm. unfold Playwright.resolve. now rewrite Hq, Hm. Qed.

(** The closing lines name the first cell and the last cell, and what
    is expected of each, in words. *)
Lemma first_report_names (c : string) :
  is_report "Cell (0,0)" "player 1 base" (first_report c).
Proof.
  unfold first_report, is_report.
  destruct (PyStr.contains "player1-base" c); [left | right]; reflexivity.
Qed.

Lemma last_report_names (c : string) :
  is_report "Last cell" "player 2 base" (last_report c).
Proof.
  unfold last_report, is_report.
  destruct (PyStr.contains "player2-base" c); [left | right]; reflexivity.
Qed.

(** The document of a run and what a locator reads in it are determined. *)
Lemma ready_unique (w : world) (d d' : Dom.document) :
  ready w d -> ready w d' -> d = d'.
Proof.
  intros [[(_ & _ & H) _] _] [[(_ & _ & H') _] _]. congruence.
Qed.

Lemma class_of_unique (sel : string) (d : Dom.document) (a b : option string) :
  class_of sel d a -> class_of sel d b -> a = b.
Proof.
  intros (e & He & Ha) (e' & He' & Hb). congruence.
Qed.

Lemma input_is_unique (w : world) (sel : string) (d : Dom.document)
  (m n : Z) :
  input_is w sel d m -> input_is w sel d n -> m = n.
Proof.
  intros (e & v & He & Hv & Hm & _) (e' & v' & He' & Hv' & Hn & _).
  congruence.
Qed.

(** A number read from an input can be formatted; so can the number
    before it, when the number is positive. *)
Lemma read_formats (w : world) (sel : string) (d : Dom.document) (n : Z) :
  input_is w sel d n -> formats w n.
Proof. intros (e & v & _ & _ & _ & H). exact H. Qed.

Lemma formats_pred (w : world) (n : Z) :
  1 <= n -> formats w n -> formats w (n - 1).
Proof.
  unfold formats. intros Hn H.
  exact (over_limit_le _ _ _ (digits_pred n Hn) H).
Qed.

Lemma formats_zero (w : world) : formats w 0.
Proof. apply one_digit_fits. reflexivity. Qed.

(** A class read that is [None] does not happen. *)
Ltac no_missing_class :=
  exfalso;
  match goal with
  | H : Playwright.resolve _ ?d = Ok ?e, N : Dom.get_attr "class" ?e = None
    |- _ =>
      first [ apply (cell_has_class 0 0) in H
            | apply cell_has_class in H ];
      destruct H as [? H]; rewrite H in N; discriminate N
  end.

(** What the run found, as the statements word it. *)
Ltac known :=
  unfold ready, renders, opens, class_of, input_is, formats; expose;
  repeat match goal with
         | |- _ /\ _ => split
         | |- exists _, _ => eexists
         end;
  first [eassumption | reflexivity].

(** No run ends in a [TypeError]. *)
Lemma never_type_error (w : world) : fst (exec w) <> Raise TypeError.
Proof.
  run_cases; try discriminate; try no_missing_class;
    match goal with
    | H : Playwright.resolve _ _ = Raise _ |- _ =>
        destruct (resolve_raises _ _ _ H); subst; discriminate
    end.
Qed.

(** However a run ends, the context manager has stopped the driver and
    no browser or page is left open; [browser.close()] itself is reached
    only by the runs that end without an exception. *)
Lemma final_state (w : world) :
  driver_running (snd (exec w)) = false /\
  browser_open (snd (exec w)) = false /\
  page_open (snd (exec w)) = false /\
  (exists l, log (snd (exec w)) = (Launch :: l ++ [StopPlaywright])%list) /\
  (In CloseBrowser (log (snd (exec w))) <-> fst (exec w) = Ok tt).
Proof.
  split; [|split; [|split; [|split]]].
  - run_cases; reflexivity.
  - run_cases; reflexivity.
  - run_cases; reflexivity.
  - run_cases;
      match goal with
      | |- exists l, Launch :: ?t = _ =>
          let rec go t acc :=
            lazymatch t with
            | [StopPlaywright] => exists (List.rev acc); reflexivity
            | ?x :: ?t' => go t' (x :: acc)
            end in go t (@nil event)
      end.
  - run_cases; (split; [intros H; simpl in H | intros H; try discriminate H]);
      first [ reflexivity
            | repeat (destruct H as [H|H]; [discriminate H|]); contradiction
            | simpl; tauto ].
Qed.

(** What a run prints: nothing when it ends before the first report, the
    two lines of the first check when it ends before the second report,
    the two lines of each check when it ends without an exception. *)
Lemma stdout_shapes (w : world) :
  (stdout w = [] /\ exists e, fst (exec w) = Raise e) \/
  (exists d c1,
     ready w d /\ class_of first_cell d (Some c1) /\
     (exists e, fst (exec w) = Raise e) /\
     stdout w = [cell_line 0 0 (Some c1); first_report c1]) \/
  (exists d c1 R C c2,
     ready w d /\ class_of first_cell d (Some c1) /\
     input_is w "#rows-input" d R /\ input_is w "#cols-input" d C /\
     class_of (cell_locator (R - 1) (C - 1)) d (Some c2) /\
     fst (exec w) = Ok tt /\
     stdout w = [cell_line 0 0 (Some c1); first_report c1;
                 cell_line (R - 1) (C - 1) (Some c2); last_report c2]).
Proof.
  run_cases; try no_missing_class;
    first [ left; split; [reflexivity | eexists; reflexivity]
          | right; left; do 2 eexists;
            split; [known|]; split; [known|];
            split; [eexists; reflexivity|];
            repeat match goal with
                   | H : PyStr.contains _ _ = _ |- _ => rewrite H; clear H
                   end; reflexivity
          | right; right; do 5 eexists;
            split; [known|]; split; [known|]; split; [known|];
            split; [known|]; split; [known|]; split; [reflexivity|];
            repeat match goal with
                   | H : PyStr.contains _ _ = _ |- _ => rewrite H; clear H
                   end; reflexivity ].
Qed.

(** * The claims *)

(** C1. The code does not test membership in the class list: the first
    cell below carries the expected text only inside the name
    [ex-player1-base], the token [player1-base] is not in its class
    list, and the first check reports success. *)
Lemma lookalike_first_passes :
  ~ In "player1-base" (PyStr.split_ws Boards.lookalike_first) /\
  stdout (Boards.serving
            (Boards.board Boards.lookalike_first "cell player2-base") true) =
    ["Cell (0,0) class: cell ex-player1-base"; success_first;
     "Cell (4,6) class: cell player2-base"; success_last].
Proof.
  split; [|reflexivity].
  simpl. intros [H|[H|[]]]; discriminate H.
Qed.

(** C2, as amended. When the screenshot cannot be written the exception
    leaves [run()]: the run ends at the screenshot, no cell is read and
    nothing is printed. *)
Theorem screenshot_failure_ends_run (w : world) (d : Dom.document) :
  renders w d ->
  can_write w shot_path = false ->
  fst (exec w) = Raise OSError /\
  log (snd (exec w)) = (setup_log w ++ [StopPlaywright])%list /\
  stdout w = [].
Proof.
  intros Hr Hs. unfold stdout. rewrite (screenshot_fails w d Hr Hs).
  repeat split.
Qed.

Lemma screenshot_failure_ends_run_witness :
  fst (exec (Boards.serving Boards.usual false)) = Raise OSError /\
  log (snd (exec (Boards.serving Boards.usual false))) =
    (setup_log (Boards.serving Boards.usual false) ++ [StopPlaywright])%list /\
  stdout (Boards.serving Boards.usual false) = [].
Proof.
  apply (screenshot_failure_ends_run _ Boards.usual).
  - repeat split; reflexivity.
  - reflexivity.
Defined.

(** C2, as stated, fails: on the usual board both checks report when
    the screenshot can be written, and neither runs when it cannot. *)
Lemma unwritable_screenshot_skips_checks :
  length (stdout (Boards.serving Boards.usual true)) = 4%nat /\
  stdout (Boards.serving Boards.usual false) = [] /\
  forall sel name,
    ~ In (GetAttribute sel name)
         (log (snd (exec (Boards.serving Boards.usual false)))).
Proof.
  split; [reflexivity|]. split; [reflexivity|].
  intros sel name H. simpl in H.
  repeat (destruct H as [H|H]; [discriminate H|]). exact H.
Qed.

(** C3. Whatever positive numbers [int()] reads from the row and column
    inputs, the second check queries the cell in row [R - 1] and column
    [C - 1] and no other cell after it; the text it formats denotes that
    cell. *)
Theorem last_cell_from_configuration
  (w : world) (d : Dom.document) (c1 : string) (R C : Z) :
  ready w d ->
  class_of first_cell d (Some c1) ->
  input_is w "#rows-input" d R ->
  input_is w "#cols-input" d C ->
  1 <= R -> 1 <= C ->
  Dom.parse (cell_locator (R - 1) (C - 1)) = Some (cell_at (R - 1) (C - 1)) /\
  exists rest,
    log (snd (exec w)) =
    (setup_log w ++ first_log c1 ++
     [InputValue "#rows-input"; InputValue "#cols-input";
      GetAttribute (cell_locator (R - 1) (C - 1)) "class"] ++ rest)%list /\
    forall sel name, ~ In (GetAttribute sel name) rest.
Proof.
  intros Hr H1 HR HC HR1 HC1. split.
  - apply parse_cell_locator.
  - apply (last_cell_queried w d c1 R C); try assumption.
    + exact (formats_pred w R HR1 (read_formats _ _ _ _ HR)).
    + exact (formats_pred w C HC1 (read_formats _ _ _ _ HC)).
Qed.

Lemma last_cell_from_configuration_witness :
  Dom.parse (cell_locator (5 - 1) (7 - 1)) = Some (cell_at (5 - 1) (7 - 1)) /\
  exists rest,
    log (snd (exec (Boards.serving Boards.usual true))) =
    (setup_log (Boards.serving Boards.usual true) ++
     first_log "cell player1-base" ++
     [InputValue "#rows-input"; InputValue "#cols-input";
      GetAttribute (cell_locator (5 - 1) (7 - 1)) "class"] ++ rest)%list /\
    forall sel name, ~ In (GetAttribute sel name) rest.
Proof.
  apply (last_cell_from_configuration _ Boards.usual).
  - repeat split; reflexivity.
  - eexists; split; reflexivity.
  - do 2 eexists; repeat split; reflexivity.
  - do 2 eexists; repeat split; reflexivity.
  - lia.
  - lia.
Defined.

(** C4. Whatever the first check finds, it raises nothing: its two
    lines are printed, a mismatch as the [FAILURE] line, and the run goes
    on to read the row count; a run that ends without an exception has
    printed the report of both checks. *)
Theorem first_check_never_stops_run
  (w : world) (d : Dom.document) (c1 : string) :
  ready w d ->
  class_of first_cell d (Some c1) ->
  (exists rest,
     log (snd (exec w)) =
     (setup_log w ++
      [GetAttribute first_cell "class"; Print (cell_line 0 0 (Some c1));
       Print (first_report c1); InputValue "#rows-input"] ++ rest)%list) /\
  (PyStr.contains "player1-base" c1 = false ->
   first_report c1 = failure_first) /\
  (fst (exec w) = Ok tt ->
   exists R C c2,
     stdout w = [cell_line 0 0 (Some c1); first_report c1;
                 cell_line (R - 1) (C - 1) (Some c2); last_report c2]).
Proof.
  intros Hr H1. split; [|split].
  - destruct (first_check_goes_on w d c1 Hr H1) as [rest E].
    exists rest. exact E.
  - intros H. unfold first_report. now rewrite H.
  - intros Hok.
    destruct (stdout_shapes w)
      as [[_ [e He]] | [(d' & c & _ & _ & [e He] & _)
                       | (d' & c & R & C & c2 & Hr' & Hc & _ & _ & _ & _ & Ho)]].
    + rewrite Hok in He. discriminate He.
    + rewrite Hok in He. discriminate He.
    + exists R, C, c2.
      rewrite <- (ready_unique w d d' Hr Hr') in Hc.
      pose proof (class_of_unique _ _ _ _ H1 Hc) as Heq.
      injection Heq as ->. exact Ho.
Qed.

Lemma first_check_never_stops_run_witness :
  (exists rest,
     log (snd (exec (Boards.serving (Boards.board "cell" "cell") true))) =
     (setup_log (Boards.serving (Boards.board "cell" "cell") true) ++
      [GetAttribute first_cell "class"; Print (cell_line 0 0 (Some "cell"));
       Print (first_report "cell"); InputValue "#rows-input"] ++ rest)%list) /\
  first_report "cell" = failure_first.
Proof.
  destruct (first_check_never_stops_run
              (Boards.serving (Boards.board "cell" "cell") true)
              (Boards.board "cell" "cell") "cell") as (Hgo & Hfail & _).
  - repeat split; reflexivity.
  - eexists; split; reflexivity.
  - split; [exact Hgo | apply Hfail; reflexivity].
Defined.

(** C5. When no element of the loaded document matches [.cell], the
    wait raises Playwright's [TimeoutError] and the run ends there: no
    screenshot, no read of the inputs or of a cell, nothing printed. *)
Theorem no_board_no_checks (w : world) (d : Dom.document) :
  opens w d ->
  Dom.query_all [Dom.ByClass "cell"] d = [] ->
  fst (exec w) = Raise PlaywrightTimeoutError /\
  log (snd (exec w)) =
    [Launch; NewPage; Goto (index_url w); WaitForSelector ".cell";
     StopPlaywright] /\
  stdout w = [].
Proof.
  intros Ho Hq.
  assert (Ha : Playwright.appeared [Dom.ByClass "cell"] d = false).
  { unfold Playwright.appeared. now rewrite Hq. }
  unfold stdout. rewrite (wait_times_out w d Ho Ha). repeat split.
Qed.

Lemma no_board_no_checks_witness :
  fst (exec (Boards.serving [] true)) = Raise PlaywrightTimeoutError /\
  log (snd (exec (Boards.serving [] true))) =
    [Launch; NewPage; Goto (index_url (Boards.serving [] true));
     WaitForSelector ".cell"; StopPlaywright] /\
  stdout (Boards.serving [] true) = [].
Proof.
  apply (no_board_no_checks _ []).
  - repeat split; reflexivity.
  - reflexivity.
Defined.

(** C6. However a run ends, with or without an exception, when it has
    ended the browser and its page are closed and the driver is stopped:
    leaving the [with] block is the last event of every run. *)
Theorem browser_never_left_open (w : world) :
  browser_open (snd (exec w)) = false /\
  page_open (snd (exec w)) = false /\
  driver_running (snd (exec w)) = false /\
  exists l, log (snd (exec w)) = (Launch :: l ++ [StopPlaywright])%list.
Proof.
  destruct (final_state w) as (Hd & Hb & Hp & Hl & _).
  repeat split; assumption.
Qed.

(** C8. When every step up to and including the reads succeeds, [run()]
    returns and the process exits with status 0, whatever the class
    strings of the two cells are. *)
Theorem exit_status_zero
  (w : world) (d : Dom.document) (c1 c2 : string) (R C : Z) :
  ready w d ->
  class_of first_cell d (Some c1) ->
  input_is w "#rows-input" d R ->
  input_is w "#cols-input" d C ->
  formats w (R - 1) ->
  formats w (C - 1) ->
  class_of (cell_locator (R - 1) (C - 1)) d (Some c2) ->
  fst (exec w) = Ok tt /\ main w = 0.
Proof.
  intros Hr H1 HR HC HfR HfC H2. unfold main.
  rewrite (run_complete w d c1 c2 R C Hr H1 HR HC HfR HfC H2).
  split; reflexivity.
Qed.

Lemma exit_status_zero_witness :
  fst (exec (Boards.serving (Boards.board "cell" "cell") true)) = Ok tt /\
  main (Boards.serving (Boards.board "cell" "cell") true) = 0 /\
  stdout (Boards.serving (Boards.board "cell" "cell") true) =
    ["Cell (0,0) class: cell"; failure_first;
     "Cell (4,6) class: cell"; failure_last].
Proof.
  destruct (exit_status_zero
              (Boards.serving (Boards.board "cell" "cell") true)
              (Boards.board "cell" "cell") "cell" "cell" 5 7) as [Hok Hmain].
  - repeat split; reflexivity.
  - eexists; split; reflexivity.
  - do 2 eexists; repeat split; reflexivity.
  - do 2 eexists; repeat split; reflexivity.
  - reflexivity.
  - reflexivity.
  - eexists; split; reflexivity.
  - split; [exact Hok | split; [exact Hmain | reflexivity]].
Defined.

(** C9, as amended. On a page that is ready, a check whose class read
    returns prints exactly two lines: first
    [Cell (row,col) class: classes] with the coordinates of its cell and
    the raw class string, then a line that begins [SUCCESS:] or
    [FAILURE:] and is a fixed message, which calls the cell [Cell (0,0)]
    or [Last cell] and what is expected of it [player 1 base] or
    [player 2 base]. A check whose class read raises prints no line. *)
Theorem report_lines (w : world) (d : Dom.document) :
  ready w d ->
  (forall e, Playwright.resolve first_cell d = Raise e -> stdout w = []) /\
  (forall c1, class_of first_cell d (Some c1) ->
     (exists later,
        stdout w = cell_line 0 0 (Some c1) :: first_report c1 :: later) /\
     is_report "Cell (0,0)" "player 1 base" (first_report c1) /\
     (forall R C,
        input_is w "#rows-input" d R ->
        input_is w "#cols-input" d C ->
        formats w (R - 1) ->
        formats w (C - 1) ->
        (forall e,
           Playwright.resolve (cell_locator (R - 1) (C - 1)) d = Raise e ->
           stdout w = [cell_line 0 0 (Some c1); first_report c1]) /\
        (forall c2,
           class_of (cell_locator (R - 1) (C - 1)) d (Some c2) ->
           stdout w = [cell_line 0 0 (Some c1); first_report c1;
                       cell_line (R - 1) (C - 1) (Some c2); last_report c2] /\
           is_report "Last cell" "player 2 base" (last_report c2)))).
Proof.
  intros Hr. split.
  - intros e He. unfold stdout. now rewrite (first_cell_missing w d e Hr He).
  - intros c1 H1. split; [|split].
    + destruct (first_check_goes_on w d c1 Hr H1) as [rest E].
      exists (printed rest). unfold stdout. rewrite E. reflexivity.
    + apply first_report_names.
    + intros R C HR HC HfR HfC. split.
      * intros e He. unfold stdout.
        now rewrite (last_cell_missing w d c1 R C e Hr H1 HR HC HfR HfC He).
      * intros c2 H2. split; [|apply last_report_names].
        unfold stdout.
        now rewrite (run_complete w d c1 c2 R C Hr H1 HR HC HfR HfC H2).
Qed.

Lemma report_lines_witness :
  stdout (Boards.serving Boards.no_first_cell true) = [] /\
  stdout (Boards.serving Boards.no_last_cell true) =
    ["Cell (0,0) class: cell player1-base"; success_first] /\
  stdout (Boards.serving Boards.usual true) =
    ["Cell (0,0) class: cell player1-base"; success_first;
     "Cell (4,6) class: cell player2-base"; success_last].
Proof.
  split; [|split].
  - destruct (report_lines (Boards.serving Boards.no_first_cell true)
                Boards.no_first_cell) as [H _].
    + repeat split; reflexivity.
    + apply (H PlaywrightTimeoutError). reflexivity.
  - destruct (report_lines (Boards.serving Boards.no_last_cell true)
                Boards.no_last_cell) as [_ H].
    + repeat split; reflexivity.
    + destruct (H "cell player1-base") as (_ & _ & H').
      * eexists; split; reflexivity.
      * destruct (H' 5 7) as [Hmiss _].
        { do 2 eexists; repeat split; reflexivity. }
        { do 2 eexists; repeat split; reflexivity. }
        { reflexivity. }
        { reflexivity. }
        apply (Hmiss PlaywrightTimeoutError). reflexivity.
  - destruct (report_lines (Boards.serving Boards.usual true) Boards.usual)
      as [_ H].
    + repeat split; reflexivity.
    + destruct (H "cell player1-base") as (_ & _ & H').
      * eexists; split; reflexivity.
      * destruct (H' 5 7) as [_ Hall].
        { do 2 eexists; repeat split; reflexivity. }
        { do 2 eexists; repeat split; reflexivity. }
        { reflexivity. }
        { reflexivity. }
        destruct (Hall "cell player2-base") as [Hout _].
        { eexists; split; reflexivity. }
        exact Hout.
Defined.

(** C9, as stated, fails: on the usual board the closing lines of the
    two reports hold neither expected token, and on a board without its
    first cell the first check is attempted and prints no line. *)
Lemma closing_lines_hold_no_token :
  stdout (Boards.serving Boards.usual true) =
    ["Cell (0,0) class: cell player1-base";
     "SUCCESS: Cell (0,0) correctly identified as player 1 base";
     "Cell (4,6) class: cell player2-base";
     "SUCCESS: Last cell correctly identified as player 2 base"] /\
  PyStr.contains "player1-base"
    "SUCCESS: Cell (0,0) correctly identified as player 1 base" = false /\
  PyStr.contains "player2-base"
    "SUCCESS: Last cell correctly identified as player 2 base" = false /\
  In (GetAttribute first_cell "class")
     (log (snd (exec (Boards.serving Boards.no_first_cell true)))) /\
  stdout (Boards.serving Boards.no_first_cell true) = [].
Proof.
  repeat split. simpl. tauto.
Qed.

(** C7. The code does not report every cell that lacks the expected
    token as a failure: the last cell below is present, the token
    [player2-base] is not in its class list, and the second check prints
    the [SUCCESS] line, no [FAILURE] line. *)
Lemma lookalike_last_passes :
  ~ In "player2-base" (PyStr.split_ws Boards.lookalike_last) /\
  stdout (Boards.serving
            (Boards.board "cell player1-base" Boards.lookalike_last) true) =
    ["Cell (0,0) class: cell player1-base"; success_first;
     "Cell (4,6) class: cell player2-base-lost"; success_last].
Proof.
  split; [|reflexivity].
  simpl. intros [H|[H|[]]]; discriminate H.
Qed.

(** A page none of whose elements at the coordinates ([r], [c]) has a
    [class] attribute has no element for the locator of that cell. *)
Lemma classless_unmatched (r c : Z) (d : Dom.document) :
  (forall e, In e d ->
     Dom.get_attr "data-row" e = Some (PyStr.of_int r) ->
     Dom.get_attr "data-col" e = Some (PyStr.of_int c) ->
     Dom.get_attr "class" e = None) ->
  Playwright.resolve (cell_locator r c) d = Raise PlaywrightTimeoutError.
Proof.
  intros Hnone.
  apply (resolve_none _ _ _ (parse_cell_locator r c)).
  apply query_none. intros e He.
  destruct (Dom.matches (cell_at r c) e) eqn:Hm; [|reflexivity].
  destruct (matches_cell_at _ _ _ Hm) as (Hrow & Hcol & classes & Hc & _).
  rewrite (Hnone e He Hrow Hcol) in Hc. discriminate Hc.
Qed.

(** C10, as amended. An element without a [class] attribute is not
    matched by the locator of a check, whose selector asks for the class
    [cell]: the class read of a check never gives [None] and no run ends
    in a [TypeError]. When the elements at the coordinates of the first
    cell carry no [class] attribute, the read of the first check raises
    Playwright's [TimeoutError] and nothing is printed; when those at
    the coordinates of the last cell carry none, the read of the second
    check raises it and no line is printed for that cell. *)
Theorem classless_cell_is_not_matched (w : world) (d : Dom.document) :
  fst (exec w) <> Raise TypeError /\
  (forall r c e,
     Playwright.resolve (cell_locator r c) d = Ok e ->
     exists classes, Dom.get_attr "class" e = Some classes) /\
  (ready w d ->
   (forall e, In e d ->
      Dom.get_attr "data-row" e = Some "0" ->
      Dom.get_attr "data-col" e = Some "0" ->
      Dom.get_attr "class" e = None) ->
   fst (exec w) = Raise PlaywrightTimeoutError /\
   log (snd (exec w)) =
     (setup_log w ++ [GetAttribute first_cell "class"; StopPlaywright])%list /\
   stdout w = []) /\
  (forall c1 R C,
     ready w d ->
     class_of first_cell d (Some c1) ->
     input_is w "#rows-input" d R ->
     input_is w "#cols-input" d C ->
     formats w (R - 1) ->
     formats w (C - 1) ->
     (forall e, In e d ->
        Dom.get_attr "data-row" e = Some (PyStr.of_int (R - 1)) ->
        Dom.get_attr "data-col" e = Some (PyStr.of_int (C - 1)) ->
        Dom.get_attr "class" e = None) ->
     fst (exec w) = Raise PlaywrightTimeoutError /\
     log (snd (exec w)) =
       (setup_log w ++ first_log c1 ++
        [InputValue "#rows-input"; InputValue "#cols-input";
         GetAttribute (cell_locator (R - 1) (C - 1)) "class";
         StopPlaywright])%list /\
     stdout w = [cell_line 0 0 (Some c1); first_report c1]).
Proof.
  split; [apply never_type_error|]. split; [|split].
  - intros r c e. apply cell_has_class.
  - intros Hr Hnone.
    pose proof (classless_unmatched 0 0 d Hnone) as He.
    unfold stdout. rewrite (first_cell_missing w d _ Hr He).
    repeat split.
  - intros c1 R C Hr H1 HR HC HfR HfC Hnone.
    pose proof (classless_unmatched (R - 1) (C - 1) d Hnone) as He.
    unfold stdout.
    rewrite (last_cell_missing w d c1 R C _ Hr H1 HR HC HfR HfC He).
    repeat split.
Qed.

Lemma classless_cell_is_not_matched_witness :
  (fst (exec (Boards.serving Boards.classless true)) =
     Raise PlaywrightTimeoutError /\
   stdout (Boards.serving Boards.classless true) = []) /\
  (fst (exec (Boards.serving Boards.classless_last true)) =
     Raise PlaywrightTimeoutError /\
   stdout (Boards.serving Boards.classless_last true) =
     ["Cell (0,0) class: cell player1-base"; success_first]).
Proof.
  split.
  - destruct (classless_cell_is_not_matched
                (Boards.serving Boards.classless true) Boards.classless)
      as (_ & _ & H & _).
    destruct H as (Hexn & _ & Hout).
    + repeat split; reflexivity.
    + intros e He Hrow Hcol. simpl in He.
      repeat (destruct He as [<-|He];
              [first [reflexivity | discriminate Hrow | discriminate Hcol]|]).
      contradiction.
    + split; assumption.
  - destruct (classless_cell_is_not_matched
                (Boards.serving Boards.classless_last true)
                Boards.classless_last) as (_ & _ & _ & H).
    destruct (H "cell player1-base" 5 7) as (Hexn & _ & Hout).
    + repeat split; reflexivity.
    + eexists; split; reflexivity.
    + do 2 eexists; repeat split; reflexivity.
    + do 2 eexists; repeat split; reflexivity.
    + reflexivity.
    + reflexivity.
    + intros e He Hrow Hcol. simpl in He.
      repeat (destruct He as [<-|He];
              [first [reflexivity | discriminate Hrow | discriminate Hcol]|]).
      contradiction.
    + split; assumption.
Defined.

(** C10, as stated, fails: there is no board on which a run ends in a
    [TypeError], nor one on which the class read of a check gives
    [None]. *)
Lemma no_run_raises_type_error :
  ~ (exists w, fst (exec w) = Raise TypeError) /\
  ~ (exists r c d e,
       Playwright.resolve (cell_locator r c) d = Ok e /\
       Dom.get_attr "class" e = None).
Proof.
  split.
  - intros [w H]. exact (never_type_error w H).
  - intros (r & c & d & e & He & Hn).
    destruct (cell_has_class r c d e He) as [classes Hc].
    rewrite Hc in Hn. discriminate Hn.
Qed.

(** * Further properties of the script *)

(** X1. When the page of the working directory cannot be loaded,
    [page.goto] raises and the run ends there: it has visited the URL
    made of the working directory and [index.html], it waits for
    nothing, prints nothing and exits with status 1. *)
Theorem navigation_failure_ends_run (w : world) :
  can_launch w = true ->
  can_open_page w = true ->
  resource w (index_url w) = None ->
  fst (exec w) = Raise PlaywrightError /\
  log (snd (exec w)) =
    [Launch; NewPage; Goto ("file://" ++ cwd w ++ "/index.html");
     StopPlaywright] /\
  stdout w = [] /\
  main w = 1.
Proof.
  intros Hl Hp Hd. unfold main. run_cases. repeat split.
Qed.

Lemma navigation_failure_ends_run_witness :
  fst (exec Boards.empty_dir) = Raise PlaywrightError /\
  log (snd (exec Boards.empty_dir)) =
    [Launch; NewPage; Goto ("file://" ++ cwd Boards.empty_dir ++ "/index.html");
     StopPlaywright] /\
  stdout Boards.empty_dir = [] /\
  main Boards.empty_dir = 1.
Proof.
  apply navigation_failure_ends_run; reflexivity.
Defined.

(** X2. When [int()] raises [ValueError] on the value of the row-count
    input (it holds no integer literal, as when it is empty), the run
    ends there, after the report of the first check: the column input is
    not read, the second check does not run and the exit status is 1.
    When the row count is read and [int()] raises on the value of the
    column-count input, the run ends in the same way after reading it. *)
Theorem unparsable_configuration_ends_run
  (w : world) (d : Dom.document) (c1 : string) :
  ready w d ->
  class_of first_cell d (Some c1) ->
  (input_unparsable w "#rows-input" d ->
   fst (exec w) = Raise ValueError /\
   log (snd (exec w)) =
     (setup_log w ++ first_log c1 ++
      [InputValue "#rows-input"; StopPlaywright])%list /\
   stdout w = [cell_line 0 0 (Some c1); first_report c1] /\
   main w = 1) /\
  (forall R, input_is w "#rows-input" d R ->
   input_unparsable w "#cols-input" d ->
   fst (exec w) = Raise ValueError /\
   log (snd (exec w)) =
     (setup_log w ++ first_log c1 ++
      [InputValue "#rows-input"; InputValue "#cols-input";
       StopPlaywright])%list /\
   stdout w = [cell_line 0 0 (Some c1); first_report c1] /\
   main w = 1).
Proof.
  intros [[(Hl & Hp & Hd) Ha] Hs] (e1 & He1 & Hc1). split.
  - intros (er & vr & Her & Hvr & Hir). unfold main.
    run_cases; repeat split.
  - intros R (er & vr & Her & Hvr & Hir & Hfr) (ec & vc & Hec & Hvc & Hic).
    unfold main. run_cases; repeat split.
Qed.

Lemma unparsable_configuration_ends_run_witness :
  fst (exec (Boards.serving (Boards.configured "" "7") true)) =
    Raise ValueError /\
  stdout (Boards.serving (Boards.configured "" "7") true) =
    ["Cell (0,0) class: cell player1-base"; success_first] /\
  fst (exec (Boards.serving (Boards.configured "5" "7.5") true)) =
    Raise ValueError.
Proof.
  destruct (unparsable_configuration_ends_run
              (Boards.serving (Boards.configured "" "7") true)
              (Boards.configured "" "7") "cell player1-base") as [Hrows _].
  - repeat split; reflexivity.
  - eexists; split; reflexivity.
  - destruct (unparsable_configuration_ends_run
                (Boards.serving (Boards.configured "5" "7.5") true)
                (Boards.configured "5" "7.5") "cell player1-base")
      as [_ Hcols].
    + repeat split; reflexivity.
    + eexists; split; reflexivity.
    + destruct Hrows as (Hexn & _ & Hout & _).
      { do 2 eexists; repeat split; reflexivity. }
      destruct (Hcols 5) as (Hexn' & _).
      { do 2 eexists; repeat split; reflexivity. }
      { do 2 eexists; repeat split; reflexivity. }
      repeat split; assumption.
Defined.

(** X3. When no element has the id of the row-count input, its read
    raises Playwright's [TimeoutError] after the report of the first
    check; when the one element with that id is neither a form control
    nor a label of one, the read raises Playwright's [Error]. Either way
    the second check does not run and the exit status is 1. *)
Theorem unreadable_rows_input_ends_run
  (w : world) (d : Dom.document) (c1 : string) :
  ready w d ->
  class_of first_cell d (Some c1) ->
  (Dom.query_all [Dom.ById "rows-input"] d = [] ->
   fst (exec w) = Raise PlaywrightTimeoutError /\
   log (snd (exec w)) =
     (setup_log w ++ first_log c1 ++
      [InputValue "#rows-input"; StopPlaywright])%list /\
   main w = 1) /\
  (forall e, Dom.query_all [Dom.ById "rows-input"] d = [e] ->
   Dom.control_value e = None ->
   fst (exec w) = Raise PlaywrightError /\
   log (snd (exec w)) =
     (setup_log w ++ first_log c1 ++
      [InputValue "#rows-input"; StopPlaywright])%list /\
   main w = 1).
Proof.
  intros [[(Hl & Hp & Hd) Ha] Hs] (e1 & He1 & Hc1). split.
  - intros Hq.
    assert (Her : Playwright.resolve "#rows-input" d =
                  Raise PlaywrightTimeoutError)
      by (apply (resolve_none _ [Dom.ById "rows-input"]); [reflexivity | exact Hq]).
    clear Hq. unfold main. run_cases; repeat split.
  - intros e Hq Hf.
    assert (Her : Playwright.resolve "#rows-input" d = Ok e)
      by (apply (resolve_one _ [Dom.ById "rows-input"]); [reflexivity | exact Hq]).
    clear Hq. unfold main. run_cases; repeat split.
Qed.

Lemma unreadable_rows_input_ends_run_witness :
  (fst (exec (Boards.serving Boards.no_rows_input true)) =
     Raise PlaywrightTimeoutError /\
   main (Boards.serving Boards.no_rows_input true) = 1) /\
  (fst (exec (Boards.serving Boards.rows_in_text true)) =
     Raise PlaywrightError /\
   main (Boards.serving Boards.rows_in_text true) = 1).
Proof.
  split.
  - destruct (unreadable_rows_input_ends_run
                (Boards.serving Boards.no_rows_input true)
                Boards.no_rows_input "cell player1-base") as [H _].
    + repeat split; reflexivity.
    + eexists; split; reflexivity.
    + destruct H as (Hexn & _ & Hmain); [reflexivity|].
      split; assumption.
  - destruct (unreadable_rows_input_ends_run
                (Boards.serving Boards.rows_in_text true)
                Boards.rows_in_text "cell player1-base") as [_ H].
    + repeat split; reflexivity.
    + eexists; split; reflexivity.
    + destruct (H (Dom.mk_element "p" [("id", "rows-input")] None true))
        as (Hexn & _ & Hmain); [reflexivity | reflexivity |].
      split; assumption.
Defined.

(** X4. The exit status is 0 or 1, and it is 0 exactly when the run has
    printed the four lines of its two reports, which is exactly when it
    has reached [browser.close()]: the status tells whether both checks
    were carried out, not what they found. *)
Theorem exit_status_tells_completion (w : world) :
  (main w = 0 \/ main w = 1) /\
  (main w = 0 <-> length (stdout w) = 4%nat) /\
  (main w = 0 <-> In CloseBrowser (log (snd (exec w)))).
Proof.
  assert (Hmain : main w = 0 <-> fst (exec w) = Ok tt).
  { unfold main. destruct (fst (exec w)) as [[]|e]; split; intros H;
      try reflexivity; discriminate H. }
  split; [|split].
  - unfold main. destruct (fst (exec w)); auto.
  - rewrite Hmain.
    destruct (stdout_shapes w)
      as [[Ho [e He]] | [(d & c1 & _ & _ & [e He] & Ho)
                        | (d & c1 & R & C & c2 & _ & _ & _ & _ & _ & Hok & Ho)]];
      rewrite Ho; try rewrite He; try rewrite Hok;
      split; intros H; try reflexivity; discriminate H.
  - rewrite Hmain. destruct (final_state w) as (_ & _ & _ & _ & Hclose).
    symmetry. exact Hclose.
Qed.

(** X5. On a board configured as one row and one column the second
    check reads the cell of the first check again: both reports show the
    coordinates (0,0) and the same class string. *)
Theorem single_cell_board_checked_twice
  (w : world) (d : Dom.document) (c : string) :
  ready w d ->
  class_of first_cell d (Some c) ->
  input_is w "#rows-input" d 1 ->
  input_is w "#cols-input" d 1 ->
  fst (exec w) = Ok tt /\
  stdout w = [cell_line 0 0 (Some c); first_report c;
              cell_line 0 0 (Some c); last_report c] /\
  exists before after,
    log (snd (exec w)) =
    (before ++ GetAttribute first_cell "class" :: after)%list /\
    In (GetAttribute first_cell "class") before.
Proof.
  intros Hr H1 HR HC.
  assert (H2 : class_of (cell_locator (1 - 1) (1 - 1)) d (Some c)) by exact H1.
  unfold stdout.
  rewrite (run_complete w d c c 1 1 Hr H1 HR HC
             (formats_zero w) (formats_zero w) H2).
  split; [reflexivity|]. split; [reflexivity|].
  exists (setup_log w ++ first_log c ++
          [InputValue "#rows-input"; InputValue "#cols-input"])%list.
  eexists. split; [reflexivity|].
  apply in_or_app. right. now left.
Qed.

Lemma single_cell_board_checked_twice_witness :
  fst (exec (Boards.serving Boards.single true)) = Ok tt /\
  stdout (Boards.serving Boards.single true) =
    ["Cell (0,0) class: cell player1-base player2-base"; success_first;
     "Cell (0,0) class: cell player1-base player2-base"; success_last].
Proof.
  destruct (single_cell_board_checked_twice
              (Boards.serving Boards.single true) Boards.single
              "cell player1-base player2-base") as (Hok & Hout & _).
  - repeat split; reflexivity.
  - eexists; split; reflexivity.
  - do 2 eexists; repeat split; reflexivity.
  - do 2 eexists; repeat split; reflexivity.
  - split; [exact Hok | exact Hout].
Defined.

(** What [shot_first] checks, in terms of the events around a read. *)
Lemma shot_first_sound (l : list event) :
  forall seen, shot_first seen l = true ->
  forall before ev after,
    l = (before ++ ev :: after)%list -> is_read ev = true ->
    seen = true \/ In (Screenshot shot_path) before.
Proof.
  induction l as [|x l IH]; intros seen Hs before ev after El Hev.
  - destruct before; discriminate El.
  - destruct before as [|y before]; simpl in El; injection El as -> ->.
    + destruct ev; try discriminate Hev; simpl in Hs;
        apply andb_true_iff in Hs as [Hs _]; left; exact Hs.
    + assert (Hstep : forall seen', shot_first seen' (before ++ ev :: after) = true ->
                      seen' = true \/ In (Screenshot shot_path) before)
        by (intros seen' H'; exact (IH seen' H' before ev after eq_refl Hev)).
      destruct y; simpl in Hs;
        try (apply andb_true_iff in Hs as [_ Hs]);
        (destruct (Hstep _ Hs) as [H|H]; [|right; right; exact H]);
        first [ left; exact H
              | apply orb_true_iff in H as [H|H];
                [ left; exact H
                | apply String.eqb_eq in H; subst path; right; left; reflexivity ] ].
Qed.

Lemma shot_first_run (w : world) :
  shot_first false (log (snd (exec w))) = true.
Proof. run_cases; reflexivity. Qed.

(** X6. In every run, whatever is read from the page or printed comes
    after the call that writes the screenshot to
    [verification/board_screenshot.png]: no input or cell is read and no
    line is printed before it. *)
Theorem screenshot_precedes_reads (w : world) :
  forall before ev after,
    log (snd (exec w)) = (before ++ ev :: after)%list ->
    is_read ev = true ->
    In (Screenshot "verification/board_screenshot.png") before.
Proof.
  intros before ev after El Hev.
  destruct (shot_first_sound _ false (shot_first_run w) before ev after El Hev)
    as [H|H]; [discriminate H | exact H].
Qed.

Lemma screenshot_precedes_reads_witness :
  In (Screenshot "verification/board_screenshot.png")
     [Launch; NewPage; Goto "file:///home/dev/virusgame/index.html";
      WaitForSelector ".cell"; Screenshot "verification/board_screenshot.png"].
Proof.
  apply (screenshot_precedes_reads (Boards.serving Boards.classless true)
           [Launch; NewPage; Goto "file:///home/dev/virusgame/index.html";
            WaitForSelector ".cell";
            Screenshot "verification/board_screenshot.png"]
           (GetAttribute first_cell "class") [StopPlaywright]);
    reflexivity.
Defined.

Lemma resolve_many (sel : string) (q : Dom.selector) (d : Dom.document)
  (e1 e2 : Dom.element) (more : list Dom.element) :
  Dom.parse sel = Some q -> Dom.query_all q d = e1 :: e2 :: more ->
  Playwright.resolve sel d = Raise PlaywrightError.
Proof. intros Hq Hm. unfold Playwright.resolve. now rewrite Hq, Hm. Qed.

(** X7. A cell that the page holds more than once is an error of the
    check, not a report: when several elements match the locator of the
    first cell the run ends with Playwright's [Error] and prints
    nothing; when several match the locator of the last cell it ends in
    the same way after the report of the first check. The exit status
    is 1. *)
Theorem duplicated_cell_is_an_error (w : world) (d : Dom.document) :
  ready w d ->
  (forall e1 e2 more,
     Dom.query_all (cell_at 0 0) d = e1 :: e2 :: more ->
     fst (exec w) = Raise PlaywrightError /\ stdout w = [] /\ main w = 1) /\
  (forall c1 R C e1 e2 more,
     class_of first_cell d (Some c1) ->
     input_is w "#rows-input" d R ->
     input_is w "#cols-input" d C ->
     formats w (R - 1) ->
     formats w (C - 1) ->
     Dom.query_all (cell_at (R - 1) (C - 1)) d = e1 :: e2 :: more ->
     fst (exec w) = Raise PlaywrightError /\
     stdout w = [cell_line 0 0 (Some c1); first_report c1] /\
     main w = 1).
Proof.
  intros Hr. split.
  - intros e1 e2 more Hq.
    pose proof (resolve_many _ _ _ _ _ _ parse_first_cell Hq) as He.
    unfold main, stdout. rewrite (first_cell_missing w d _ Hr He).
    repeat split.
  - intros c1 R C e1 e2 more H1 HR HC HfR HfC Hq.
    pose proof (resolve_many _ _ _ _ _ _ (parse_cell_locator _ _) Hq) as He.
    unfold main, stdout.
    rewrite (last_cell_missing w d c1 R C _ Hr H1 HR HC HfR HfC He).
    repeat split.
Qed.

Lemma duplicated_cell_is_an_error_witness :
  fst (exec (Boards.serving Boards.doubled true)) = Raise PlaywrightError /\
  stdout (Boards.serving Boards.doubled true) = [] /\
  main (Boards.serving Boards.doubled true) = 1.
Proof.
  destruct (duplicated_cell_is_an_error
              (Boards.serving Boards.doubled true) Boards.doubled) as [H _].
  - repeat split; reflexivity.
  - apply (H (Boards.cell "cell player1-base" "0" "0")
             (Boards.cell "cell" "0" "0") []).
    reflexivity.
Defined.

(** The numeral of a negative integer begins with the minus sign. *)
Lemma negative_numeral (z : Z) :
  z < 0 -> PyStr.starts_with "-" (PyStr.of_int z) = true.
Proof.
  intros Hz. destruct (of_int_shape z) as (u & _ & _ & ->).
  apply Z.ltb_lt in Hz. rewrite Hz. reflexivity.
Qed.

(** X8. The script does not check that the counts it reads are
    positive: with a row or column count of 0 or less it asks for a cell
    whose row or column is the numeral of a negative number. When those
    numerals can be formatted and the elements of the page carry no
    negative coordinate, that cell is missing, so the run ends with
    Playwright's [TimeoutError] after the report of the first check,
    with exit status 1. *)
Theorem nonpositive_configuration_times_out
  (w : world) (d : Dom.document) (c1 : string) (R C : Z) :
  ready w d ->
  class_of first_cell d (Some c1) ->
  input_is w "#rows-input" d R ->
  input_is w "#cols-input" d C ->
  formats w (R - 1) ->
  formats w (C - 1) ->
  R <= 0 \/ C <= 0 ->
  (forall e v, In e d ->
     Dom.get_attr "data-row" e = Some v \/ Dom.get_attr "data-col" e = Some v ->
     PyStr.starts_with "-" v = false) ->
  fst (exec w) = Raise PlaywrightTimeoutError /\
  log (snd (exec w)) =
    (setup_log w ++ first_log c1 ++
     [InputValue "#rows-input"; InputValue "#cols-input";
      GetAttribute (cell_locator (R - 1) (C - 1)) "class";
      StopPlaywright])%list /\
  stdout w = [cell_line 0 0 (Some c1); first_report c1] /\
  main w = 1.
Proof.
  intros Hr H1 HR HC HfR HfC Hneg Hpos.
  assert (Hq : Dom.query_all (cell_at (R - 1) (C - 1)) d = []).
  { apply query_none. intros e He.
    destruct (Dom.matches (cell_at (R - 1) (C - 1)) e) eqn:Hm; [|reflexivity].
    destruct (matches_cell_at _ _ _ Hm) as (Hrow & Hcol & _).
    destruct Hneg as [Hneg|Hneg].
    - pose proof (negative_numeral (R - 1) ltac:(lia)) as Hn.
      rewrite (Hpos e _ He (or_introl Hrow)) in Hn. discriminate Hn.
    - pose proof (negative_numeral (C - 1) ltac:(lia)) as Hn.
      rewrite (Hpos e _ He (or_intror Hcol)) in Hn. discriminate Hn. }
  pose proof (resolve_none _ _ _ (parse_cell_locator _ _) Hq) as He.
  unfold main, stdout.
  rewrite (last_cell_missing w d c1 R C _ Hr H1 HR HC HfR HfC He).
  repeat split.
Qed.

Lemma nonpositive_configuration_times_out_witness :
  fst (exec (Boards.serving (Boards.configured "0" "7") true)) =
    Raise PlaywrightTimeoutError /\
  stdout (Boards.serving (Boards.configured "0" "7") true) =
    ["Cell (0,0) class: cell player1-base"; success_first] /\
  main (Boards.serving (Boards.configured "0" "7") true) = 1.
Proof.
  destruct (nonpositive_configuration_times_out
              (Boards.serving (Boards.configured "0" "7") true)
              (Boards.configured "0" "7") "cell player1-base" 0 7)
    as (Hexn & _ & Hout & Hmain).
  - repeat split; reflexivity.
  - eexists; split; reflexivity.
  - do 2 eexists; repeat split; reflexivity.
  - do 2 eexists; repeat split; reflexivity.
  - reflexivity.
  - reflexivity.
  - left; lia.
  - intros e v He Hv. simpl in He.
    repeat (destruct He as [<-|He];
            [destruct Hv as [Hv|Hv]; vm_compute in Hv;
             first [discriminate Hv | injection Hv as <-; reflexivity]|]).
    contradiction.
  - repeat split; assumption.
Defined.

(** X9. A cell that is missing is an error of the run, not a failed
    check: when no element matches the locator of a cell the class read
    raises Playwright's [TimeoutError], no line is printed for the cell
    and the exit status is 1. When one element matches, the read raises
    nothing and the two lines of the check are printed. *)
Theorem missing_cell_is_an_error (w : world) (d : Dom.document) :
  ready w d ->
  (Dom.query_all (cell_at 0 0) d = [] ->
   fst (exec w) = Raise PlaywrightTimeoutError /\ stdout w = [] /\
   main w = 1) /\
  (forall e, Dom.query_all (cell_at 0 0) d = [e] ->
   exists c1 later,
     Dom.get_attr "class" e = Some c1 /\
     stdout w = cell_line 0 0 (Some c1) :: first_report c1 :: later) /\
  (forall c1 R C,
     class_of first_cell d (Some c1) ->
     input_is w "#rows-input" d R ->
     input_is w "#cols-input" d C ->
     formats w (R - 1) ->
     formats w (C - 1) ->
     (Dom.query_all (cell_at (R - 1) (C - 1)) d = [] ->
      fst (exec w) = Raise PlaywrightTimeoutError /\
      stdout w = [cell_line 0 0 (Some c1); first_report c1] /\
      main w = 1) /\
     (forall e, Dom.query_all (cell_at (R - 1) (C - 1)) d = [e] ->
      exists c2,
        Dom.get_attr "class" e = Some c2 /\
        fst (exec w) = Ok tt /\
        stdout w = [cell_line 0 0 (Some c1); first_report c1;
                    cell_line (R - 1) (C - 1) (Some c2); last_report c2])).
Proof.
  intros Hr. split; [|split].
  - intros Hq.
    pose proof (resolve_none _ _ _ parse_first_cell Hq) as He.
    unfold main, stdout. rewrite (first_cell_missing w d _ Hr He).
    repeat split.
  - intros e Hq.
    pose proof (resolve_one _ _ _ _ parse_first_cell Hq) as He.
    destruct (first_cell_has_class d e He) as [c1 Hc].
    assert (H1 : class_of first_cell d (Some c1)) by (exists e; auto).
    destruct (first_check_goes_on w d c1 Hr H1) as [rest E].
    exists c1, (printed rest). split; [exact Hc|].
    unfold stdout. rewrite E. reflexivity.
  - intros c1 R C H1 HR HC HfR HfC. split.
    + intros Hq.
      pose proof (resolve_none _ _ _ (parse_cell_locator _ _) Hq) as He.
      unfold main, stdout.
      rewrite (last_cell_missing w d c1 R C _ Hr H1 HR HC HfR HfC He).
      repeat split.
    + intros e Hq.
      pose proof (resolve_one _ _ _ _ (parse_cell_locator _ _) Hq) as He.
      destruct (cell_has_class _ _ d e He) as [c2 Hc].
      assert (H2 : class_of (cell_locator (R - 1) (C - 1)) d (Some c2))
        by (exists e; auto).
      exists c2. unfold stdout.
      rewrite (run_complete w d c1 c2 R C Hr H1 HR HC HfR HfC H2).
      repeat split. exact Hc.
Qed.

Lemma missing_cell_is_an_error_witness :
  (fst (exec (Boards.serving Boards.no_first_cell true)) =
     Raise PlaywrightTimeoutError /\
   stdout (Boards.serving Boards.no_first_cell true) = [] /\
   main (Boards.serving Boards.no_first_cell true) = 1) /\
  (fst (exec (Boards.serving Boards.no_last_cell true)) =
     Raise PlaywrightTimeoutError /\
   stdout (Boards.serving Boards.no_last_cell true) =
     ["Cell (0,0) class: cell player1-base"; success_first] /\
   main (Boards.serving Boards.no_last_cell true) = 1).
Proof.
  split.
  - apply (missing_cell_is_an_error _ Boards.no_first_cell).
    + repeat split; reflexivity.
    + reflexivity.
  - destruct (missing_cell_is_an_error
                (Boards.serving Boards.no_last_cell true)
                Boards.no_last_cell) as (_ & _ & H).
    + repeat split; reflexivity.
    + destruct (H "cell player1-base" 5 7) as [Hmiss _].
      * eexists; split; reflexivity.
      * do 2 eexists; repeat split; reflexivity.
      * do 2 eexists; repeat split; reflexivity.
      * reflexivity.
      * reflexivity.
      * apply Hmiss. reflexivity.
Defined.
